(** * Dialect query generators of sequelize: Postgres, Db2 and IBM i

    A shallow embedding of
    - [PostgresQueryGeneratorTypeScript] and [Db2QueryGeneratorTypeScript]
      (packages/core/src/dialects/abstract/query-generator.d.ts), and
    - [IBMiQueryGenerator] (packages/ibmi/src/query-generator.js),
    with the properties the specification states about them.

    JavaScript values are an inductive type, option objects are finite maps
    from keys to values, objects whose enumeration order reaches the SQL text
    are association lists, a thrown exception is the [Throw] branch of
    [Result], and the bytes drawn from node:crypto are an explicit entropy
    state threaded through the two methods that draw them. *)

From Stdlib Require Import ZArith String Ascii List Permutation.
From Stdlib Require Import Init.Byte.
From stdpp Require Import base option list strings pretty gmap sorting.

Local Open Scope string_scope.

(** ** JavaScript values *)

Module Js.

(** A model class: the column attributes of its definition, in the
    enumeration order of [modelDefinition.physicalAttributes]. *)
Record Attribute := {
  columnName : option string;
  autoIncrement : bool;
  type : option string;
}.

Record ModelStatic := {
  physicalAttributes : list (string * option Attribute);
  (** the table of its definition *)
  modelTable : string;
  (** what a template literal makes of the class *)
  sourceText : string;
}.

#[warnings="-register-all"]
Inductive Value :=
| VUndefined
| VNull
| VBool (b : bool)
| VNumber (n : Z)
| VString (s : string)
| VArray (items : list Value)
| VObject (entries : list (string * Value))
| VFunction (name : string)
| VModel (m : ModelStatic).

(** [Boolean(v)]: the falsy values are undefined, null, false, 0 and the
    empty string. *)
Definition truthy (v : Value) : bool :=
  match v with
  | VUndefined | VNull => false
  | VBool b => b
  | VNumber n => negb (n =? 0)%Z
  | VString s => negb (String.eqb s EmptyString)
  | VArray _ | VObject _ | VFunction _ | VModel _ => true
  end.

(** [v == null] *)
Definition nullish (v : Value) : bool :=
  match v with
  | VUndefined | VNull => true
  | _ => false
  end.

(** [v === undefined] *)
Definition isUndefined (v : Value) : bool :=
  match v with
  | VUndefined => true
  | _ => false
  end.

(** [Array.isArray(v)] *)
Definition isArray (v : Value) : bool :=
  match v with
  | VArray _ => true
  | _ => false
  end.

(** [typeof v === 'function'] *)
Definition isFunction (v : Value) : bool :=
  match v with
  | VFunction _ | VModel _ => true
  | _ => false
  end.

(** An options object; [o.key] of a missing key is undefined. *)
Definition get (o : gmap string Value) (key : string) : Value :=
  default VUndefined (o !! key).

(** [options?.key] *)
Definition getOpt (o : option (gmap string Value)) (key : string) : Value :=
  match o with
  | Some o => get o key
  | None => VUndefined
  end.

(** ['key' in o] *)
Definition hasKey (o : gmap string Value) (key : string) : bool :=
  bool_decide (is_Some (o !! key)).

(** Property read on an object whose entries are kept in order. *)
Fixpoint lookupEntry {A} (key : string) (entries : list (string * A)) : option A :=
  match entries with
  | [] => None
  | (k, v) :: rest => if String.eqb k key then Some v else lookupEntry key rest
  end.

Definition asString (v : Value) : option string :=
  match v with
  | VString s => Some s
  | _ => None
  end.

(** A value that is an array of strings. *)
Definition asStringArray (v : Value) : option (list string) :=
  match v with
  | VArray items => mapM asString items
  | _ => None
  end.

(** [value ! ], [value ?? ...] on an optional string passed on as a value. *)
Definition ofOptString (s : option string) : Value :=
  match s with
  | Some s => VString s
  | None => VUndefined
  end.

(** *** Strings *)

Definition lowerChar (c : ascii) : ascii :=
  let n := nat_of_ascii c in
  if (65 <=? n)%nat && (n <=? 90)%nat then ascii_of_nat (n + 32) else c.

(** [s.toLowerCase()]. Strings are byte strings (UTF-8); only the letters
    A to Z are folded, which is all a comparison with an ASCII word needs. *)
Fixpoint toLowerCase (s : string) : string :=
  match s with
  | EmptyString => EmptyString
  | String c rest => String (lowerChar c) (toLowerCase rest)
  end.

Fixpoint dropChars (n : nat) (s : string) : string :=
  match n, s with
  | O, _ => s
  | S n, String _ rest => dropChars n rest
  | S _, EmptyString => EmptyString
  end.

(** [hay.includes(needle)] *)
Fixpoint includes (needle hay : string) : bool :=
  String.prefix needle hay ||
  match hay with
  | EmptyString => false
  | String _ rest => includes needle rest
  end.

(** [hay.replace(needle, by)] with a string pattern: the first occurrence. *)
Fixpoint replace (needle by_ hay : string) : string :=
  if String.prefix needle hay then by_ +:+ dropChars (String.length needle) hay
  else match hay with
       | EmptyString => EmptyString
       | String c rest => String c (replace needle by_ rest)
       end.

(** [items.join(sep)] *)
Definition join (sep : string) (items : list string) : string :=
  String.concat sep items.

(** [s.at(-1)] and [s.slice(0, -1)] *)
Fixpoint lastChar (s : string) : option ascii :=
  match s with
  | EmptyString => None
  | String c EmptyString => Some c
  | String _ rest => lastChar rest
  end.

Fixpoint dropLast (s : string) : string :=
  match s with
  | EmptyString => EmptyString
  | String _ EmptyString => EmptyString
  | String c rest => String c (dropLast rest)
  end.

(** *** [Map]: insertion ordered, [set] on a present key keeps its place *)

Fixpoint mapSet {A} (key : string) (v : A) (m : list (string * A)) : list (string * A) :=
  match m with
  | [] => [(key, v)]
  | (k, w) :: rest =>
      if String.eqb k key then (k, v) :: rest else (k, w) :: mapSet key v rest
  end.

Definition mapGet {A} (key : string) (m : list (string * A)) : option A :=
  lookupEntry key m.

(** *** [Array.prototype.sort()] on strings

    The default comparison is a total order on strings, here [String.le];
    the order being total and antisymmetric, any sorting algorithm gives the
    same array, and whether two sorted arrays are equal does not depend on
    which total order sorted them. *)
Definition sort (items : list string) : list string :=
  merge_sort String.le items.

(** [a.every((value, index) => value === b[index])]; past the end of [b]
    the element read is undefined, which no string equals. *)
Fixpoint everyEqual (a b : list string) : bool :=
  match a with
  | [] => true
  | x :: a' =>
      match b with
      | y :: b' => String.eqb x y && everyEqual a' b'
      | [] => false
      end
  end.

End Js.

(** ** Exceptions *)

Inductive Error :=
(** thrown by the option validator: operation, dialect, offending keys *)
| ConfigurationError (methodName dialect : string) (keys : gset string)
(** [new Error(message)] *)
| JsError (message : string)
(** a call on a value that has no such method *)
| TypeError (message : string).

Inductive Result (A : Type) :=
| Ok (a : A)
| Throw (e : Error).

Arguments Ok {A} a.
Arguments Throw {A} e.

(** Sequencing stops at the first exception. *)
Global Instance Result_bind : MBind Result := fun A B k r =>
  match r with
  | Ok a => k a
  | Throw e => Throw e
  end.

Global Instance Result_fmap : FMap Result := fun A B f r =>
  match r with
  | Ok a => Ok (f a)
  | Throw e => Throw e
  end.

Definition isOk {A} (r : Result A) : bool :=
  match r with
  | Ok _ => true
  | Throw _ => false
  end.

(** ** Tables, options and the generator's collaborators *)

(** What [extractTableDetails] returns, and the [{tableName, schema}] form a
    caller may pass. *)
Record TableDetails := {
  tableName : string;
  schema : option string;
}.

(** [TableNameOrModel]: a bare name, a [{tableName, schema}] record or a
    model class. *)
Inductive TableNameOrModel :=
| TString (name : string)
| TObject (table : TableDetails)
| TModel (m : Js.ModelStatic).

(** The [bind] object of [insertQuery], created empty and filled by the
    [bindParam] closure of the internals. *)
Definition Bind := list (string * Js.Value).

(** [insertOptions.bindParam]: the closure over [bind] made by the
    internals, what the caller passed, or undefined. *)
Inductive BindParam :=
| BindInternal
| BindCaller (v : Js.Value)
| BindUndefined.

(** [insertOptions = {...options, model, bindParam}] *)
Record InsertOptions := {
  spread : gmap string Js.Value;
  model : Js.Value;
  bindParam : BindParam;
}.

(** The second argument of [escape] in [insertQuery]:
    [{...insertOptions, type}]. *)
Record EscapeOptions := {
  insertOptions : InsertOptions;
  attributeType : option string;
}.

(** The [*_SUPPORTABLE_OPTIONS] constants of the abstract dialect, which the
    generators import and hand to the validator. *)
Record SupportableOptions := {
  CREATE_DATABASE_QUERY_SUPPORTABLE_OPTIONS : gset string;
  INSERT_QUERY_SUPPORTABLE_OPTIONS : gset string;
  DROP_SCHEMA_QUERY_SUPPORTABLE_OPTIONS : gset string;
  RENAME_TABLE_QUERY_SUPPORTABLE_OPTIONS : gset string;
  TRUNCATE_TABLE_QUERY_SUPPORTABLE_OPTIONS : gset string;
  CREATE_TABLE_QUERY_SUPPORTABLE_OPTIONS : gset string;
  ADD_COLUMN_QUERY_SUPPORTABLE_OPTIONS : gset string;
}.

(** What a dialect generator is constructed with and inherits: the dialect,
    the sequelize options, the escaper and quoting of the abstract generator,
    the dialect's internals object and the helpers it imports. None of these
    is defined in the generator classes; the methods below are written
    against this interface, and the theorems hold for every instance. The
    escaper is typed to return a string and can reach [bind] only through
    the options it is given. *)
Record Generator := {
  dialectName : string;
  omitNull : option bool;
  prependSearchPath : Js.Value;
  supportable : SupportableOptions;
  quoteIdentifier : Js.Value -> string;
  quoteTable : TableNameOrModel -> string;
  extractTableDetails : TableNameOrModel -> TableDetails;
  escape : Js.Value -> option EscapeOptions -> Bind -> string * Bind;
  removeNullishValuesFromHash : list (string * Js.Value) -> bool -> list (string * Js.Value);
  getTechnicalDatabaseNames : list string;
  getTechnicalSchemaNames : list string;
  getReturnFields : InsertOptions -> list (string * option Js.Attribute) -> list string;
  generateUpdateOnDuplicateKeysFragment : InsertOptions -> string;
  superAddIndexQuery : TableNameOrModel -> gmap string Js.Value -> Result string;
  normalizedAttributeToSQL : TableNameOrModel -> string -> Js.Value -> string;
  inspect : Js.Value -> string;
}.

(** [this.escape(value)]: no options, so no bind parameter is recorded. *)
Definition escapeValue (g : Generator) (v : Js.Value) : string :=
  (escape g v None []).1.

(** [{ query, bind }] *)
Record QueryWithBindParams := {
  query : string;
  bindParams : option Bind;
}.

Module Util.

(** Modelled from the spec: utils/join-sql-fragments is not under src/.
    Section 4.2: the fragments that are empty are filtered out and the
    others are joined with a single space. *)
Definition joinSQLFragments (fragments : list string) : string :=
  Js.join " " (filter (fun f => f <> EmptyString) fragments).

(** Modelled from the spec: utils/check (rejectInvalidOptions) is not under
    src/. Section 4.3: it fails with a ConfigurationError naming the
    operation, the dialect and the keys of [options] that are not in
    [supportedKeys]. *)
Definition rejectInvalidOptions (methodName dialect : string)
    (supportableKeys supportedKeys : gset string)
    (options : gmap string Js.Value) : Result unit :=
  let unsupported := dom options ∖ supportedKeys in
  if decide (unsupported = ∅) then Ok tt
  else Throw (ConfigurationError methodName dialect unsupported).

(** [EMPTY_SET] of utils/object *)
Definition EMPTY_SET : gset string := ∅.

(** Modelled from the spec: utils/string (generateIndexName) is not under
    src/. Section 4.4: the derived name is
    [<tableName>_<field1>_<field2>_..._<fieldN>]. *)
Definition generateIndexName (table : TableDetails) (fields : list string) : string :=
  tableName table +:+ "_" +:+ Js.join "_" fields.

(** Modelled from the spec: AbstractQueryGenerator.addIndexQuery is not under
    src/. Section 4.4, index name resolution of the add path: a string name
    supplied by the caller is used, otherwise the name is derived from the
    table and the field list. *)
Definition resolveIndexName (table : TableDetails) (name : Js.Value)
    (fields : list string) : string :=
  match name with
  | Js.VString s => s
  | _ => generateIndexName table fields
  end.

(** *** node:crypto

    The bytes the system will hand out, in order; a draw takes the first
    [n] of them and leaves the rest. *)
Definition Entropy := nat -> byte.

Definition randomBytes (n : nat) (e : Entropy) : list byte * Entropy :=
  (map e (seq 0 n), fun i => e (n + i)%nat).

Definition hexDigit (n : N) : ascii :=
  match n with
  | 0 => "0" | 1 => "1" | 2 => "2" | 3 => "3" | 4 => "4" | 5 => "5"
  | 6 => "6" | 7 => "7" | 8 => "8" | 9 => "9" | 10 => "a" | 11 => "b"
  | 12 => "c" | 13 => "d" | 14 => "e" | _ => "f"
  end%N%char.

Definition hexByte (b : byte) : string :=
  let n := Byte.to_N b in
  String (hexDigit (n / 16)) (String (hexDigit (n mod 16)) EmptyString).

(** [buffer.toString('hex')] *)
Fixpoint toHex (bytes : list byte) : string :=
  match bytes with
  | [] => EmptyString
  | b :: rest => hexByte b +:+ toHex rest
  end.

(** The value of a hex digit, to read an encoded byte back. *)
Definition hexValue (c : ascii) : N :=
  (if Ascii.eqb c "0" then 0 else if Ascii.eqb c "1" then 1
   else if Ascii.eqb c "2" then 2 else if Ascii.eqb c "3" then 3
   else if Ascii.eqb c "4" then 4 else if Ascii.eqb c "5" then 5
   else if Ascii.eqb c "6" then 6 else if Ascii.eqb c "7" then 7
   else if Ascii.eqb c "8" then 8 else if Ascii.eqb c "9" then 9
   else if Ascii.eqb c "a" then 10 else if Ascii.eqb c "b" then 11
   else if Ascii.eqb c "c" then 12 else if Ascii.eqb c "d" then 13
   else if Ascii.eqb c "e" then 14 else 15)%N.

Definition unhexByte (s : string) : option byte :=
  match s with
  | String hi (String lo EmptyString) => Byte.of_N (hexValue hi * 16 + hexValue lo)
  | _ => None
  end.

End Util.

(** The double quote character, for the SQL text that contains it. *)
Definition dq : string := String (ascii_of_nat 34) EmptyString.

(** The second argument of [removeIndexQuery]: [string | string[]]. *)
Inductive IndexNameOrAttributes :=
| IndexName (name : string)
| IndexAttributes (fields : list string).

(** The skip list of the caller: [options.skip] when it is an array. *)
Definition callerSkip (options : option (gmap string Js.Value)) : list Js.Value :=
  match Js.getOpt options "skip" with
  | Js.VArray skip => skip
  | _ => []
  end.

(** ** PostgresQueryGeneratorTypeScript *)

Module Postgres.

Import Js Util.


Definition INSERT_QUERY_SUPPORTED_OPTIONS : gset string :=
  list_to_set ["conflictWhere"; "exception"; "ignoreDuplicates"; "returning";
               "updateOnDuplicate"].

(** The local [databasesToSkip] of [listDatabasesQuery]. *)
Definition databasesToSkip (g : Generator) (options : option (gmap string Value))
    : list Value :=
  let databasesToSkip := map VString (getTechnicalDatabaseNames g) in
  match getOpt options "skip" with
  | VArray skip => (databasesToSkip ++ skip)%list
  | _ => databasesToSkip
  end.

Definition listDatabasesQuery (g : Generator) (options : option (gmap string Value))
    : string :=
  joinSQLFragments [
    "SELECT datname AS " +:+ dq +:+ "name" +:+ dq +:+ " FROM pg_database";
    "WHERE datistemplate = false AND datname NOT IN (" +:+
      join ", " (map (escapeValue g) (databasesToSkip g options)) +:+ ")"
  ].


(** The local [schemasToSkip] of [listSchemasQuery]. *)
Definition schemasToSkip (g : Generator) (options : option (gmap string Value))
    : list Value :=
  let schemasToSkip := VString "public" :: map VString (getTechnicalSchemaNames g) in
  match getOpt options "skip" with
  | VArray skip => (schemasToSkip ++ skip)%list
  | _ => schemasToSkip
  end.

Definition listSchemasQuery (g : Generator) (options : option (gmap string Value))
    : string :=
  joinSQLFragments [
    "SELECT schema_name AS " +:+ dq +:+ "schema" +:+ dq +:+
      " FROM information_schema.schemata";
    "WHERE schema_name !~ E'^pg_' AND schema_name NOT IN (" +:+
      join ", " (map (escapeValue g) (schemasToSkip g options)) +:+ ")"
  ].

(** The third fragment of [listTablesQuery]: the schema predicate. *)
Definition listTablesSchemaFragment (g : Generator)
    (options : option (gmap string Value)) : string :=
  if truthy (getOpt options "schema")
  then "AND table_schema = " +:+ escapeValue g (getOpt options "schema")
  else "AND table_schema !~ E'^pg_' AND table_schema NOT IN (" +:+
         join ", " (map (fun schema => escapeValue g (VString schema))
                        (getTechnicalSchemaNames g)) +:+ ")".

Definition listTablesQuery (g : Generator) (options : option (gmap string Value))
    : string :=
  joinSQLFragments [
    "SELECT table_name AS " +:+ dq +:+ "tableName" +:+ dq +:+ ", table_schema AS "
      +:+ dq +:+ "schema" +:+ dq;
    "FROM information_schema.tables WHERE table_type = 'BASE TABLE' AND table_name != 'spatial_ref_sys'";
    listTablesSchemaFragment g options;
    "ORDER BY table_schema, table_name"
  ].

Definition renameTableQuery (g : Generator)
    (beforeTableName afterTableName : TableNameOrModel)
    (options : option (gmap string Value)) : Result string :=
  let beforeTable := extractTableDetails g beforeTableName in
  let afterTable := extractTableDetails g afterTableName in
  if decide (schema beforeTable <> schema afterTable) then
    if negb (truthy (getOpt options "changeSchema")) then
      Throw (JsError "To move a table between schemas, you must set `options.changeSchema` to true.")
    else if decide (tableName beforeTable <> tableName afterTable) then
      Throw (JsError ("Renaming a table and moving it to a different schema is not supported by "
                      +:+ dialectName g +:+ "."))
    else
      Ok ("ALTER TABLE " +:+ quoteTable g beforeTableName +:+ " SET SCHEMA " +:+
          quoteIdentifier g (ofOptString (schema afterTable)))
  else
    Ok ("ALTER TABLE " +:+ quoteTable g beforeTableName +:+ " RENAME TO " +:+
        quoteIdentifier g (VString (tableName afterTable))).

Definition truncateTableQuery (g : Generator) (tableName : TableNameOrModel)
    (options : option (gmap string Value)) : string :=
  joinSQLFragments [
    "TRUNCATE " +:+ quoteTable g tableName;
    if truthy (getOpt options "restartIdentity") then "RESTART IDENTITY" else EmptyString;
    if truthy (getOpt options "cascade") then "CASCADE" else EmptyString
  ].

Definition showConstraintsQuery (g : Generator) (tableOrModel : TableNameOrModel)
    (options : option (gmap string Value)) : string :=
  let table := extractTableDetails g tableOrModel in
  joinSQLFragments [
    "SELECT c.constraint_catalog AS " +:+ dq +:+ "constraintCatalog" +:+ dq +:+ ",";
    "c.constraint_schema AS " +:+ dq +:+ "constraintSchema" +:+ dq +:+ ",";
    "c.constraint_name AS " +:+ dq +:+ "constraintName" +:+ dq +:+ ",";
    "c.constraint_type AS " +:+ dq +:+ "constraintType" +:+ dq +:+ ",";
    "c.table_catalog AS " +:+ dq +:+ "tableCatalog" +:+ dq +:+ ",";
    "c.table_schema AS " +:+ dq +:+ "tableSchema" +:+ dq +:+ ",";
    "c.table_name AS " +:+ dq +:+ "tableName" +:+ dq +:+ ",";
    "kcu.column_name AS " +:+ dq +:+ "columnNames" +:+ dq +:+ ",";
    "ccu.table_schema AS " +:+ dq +:+ "referencedTableSchema" +:+ dq +:+ ",";
    "ccu.table_name AS " +:+ dq +:+ "referencedTableName" +:+ dq +:+ ",";
    "ccu.column_name AS " +:+ dq +:+ "referencedColumnNames" +:+ dq +:+ ",";
    "r.delete_rule AS " +:+ dq +:+ "deleteAction" +:+ dq +:+ ",";
    "r.update_rule AS " +:+ dq +:+ "updateAction" +:+ dq +:+ ",";
    "ch.check_clause AS " +:+ dq +:+ "definition" +:+ dq +:+ ",";
    "c.is_deferrable AS " +:+ dq +:+ "isDeferrable" +:+ dq +:+ ",";
    "c.initially_deferred AS " +:+ dq +:+ "initiallyDeferred" +:+ dq;
    "FROM INFORMATION_SCHEMA.table_constraints c";
    "LEFT JOIN INFORMATION_SCHEMA.referential_constraints r ON c.constraint_catalog = r.constraint_catalog AND c.constraint_schema = r.constraint_schema AND c.constraint_name = r.constraint_name";
    "LEFT JOIN INFORMATION_SCHEMA.key_column_usage kcu ON c.constraint_catalog = kcu.constraint_catalog AND c.constraint_schema = kcu.constraint_schema AND c.constraint_name = kcu.constraint_name";
    "LEFT JOIN information_schema.constraint_column_usage AS ccu ON r.constraint_catalog = ccu.constraint_catalog AND r.constraint_schema = ccu.constraint_schema AND r.constraint_name = ccu.constraint_name";
    "LEFT JOIN INFORMATION_SCHEMA.check_constraints ch ON c.constraint_catalog = ch.constraint_catalog AND c.constraint_schema = ch.constraint_schema AND c.constraint_name = ch.constraint_name";
    "WHERE c.table_name = " +:+ escapeValue g (VString (tableName table));
    "AND c.table_schema = " +:+ escapeValue g (ofOptString (schema table));
    if truthy (getOpt options "columnName")
    then "AND kcu.column_name = " +:+ escapeValue g (getOpt options "columnName")
    else EmptyString;
    if truthy (getOpt options "constraintName")
    then "AND c.constraint_name = " +:+ escapeValue g (getOpt options "constraintName")
    else EmptyString;
    if truthy (getOpt options "constraintType")
    then "AND c.constraint_type = " +:+ escapeValue g (getOpt options "constraintType")
    else EmptyString;
    "ORDER BY c.constraint_name, kcu.ordinal_position"
  ].

(** The local [indexName] of [removeIndexQuery]. *)
Definition removeIndexName (g : Generator) (tableName : TableNameOrModel)
    (indexNameOrAttributes : IndexNameOrAttributes) : string :=
  let table := extractTableDetails g tableName in
  match indexNameOrAttributes with
  | IndexAttributes fields => generateIndexName table fields
  | IndexName name => name
  end.

Definition removeIndexQuery (g : Generator) (tableName : TableNameOrModel)
    (indexNameOrAttributes : IndexNameOrAttributes)
    (options : option (gmap string Value)) : Result string :=
  if truthy (getOpt options "cascade") && truthy (getOpt options "concurrently") then
    Throw (JsError ("Cannot specify both concurrently and cascade options in removeIndexQuery for "
                    +:+ dialectName g +:+ " dialect"))
  else
    let indexName := removeIndexName g tableName indexNameOrAttributes in
    let table := extractTableDetails g tableName in
    Ok (joinSQLFragments [
      "DROP INDEX";
      if truthy (getOpt options "concurrently") then "CONCURRENTLY" else EmptyString;
      if truthy (getOpt options "ifExists") then "IF EXISTS" else EmptyString;
      quoteIdentifier g (ofOptString (schema table)) +:+ "." +:+
        quoteIdentifier g (VString indexName);
      if truthy (getOpt options "cascade") then "CASCADE" else EmptyString
    ]).

(** [attributeMap.get(column)?.autoIncrement] and [...?.type] *)
Definition attributeAutoIncrement (attributeMap : list (string * option Attribute))
    (column : string) : bool :=
  match mapGet column attributeMap with
  | Some (Some attribute) => autoIncrement attribute
  | _ => false
  end.

Definition attributeTypeOf (attributeMap : list (string * option Attribute))
    (column : string) : option string :=
  match mapGet column attributeMap with
  | Some (Some attribute) => type attribute
  | _ => None
  end.

(** One round of [for (... of ...) attributeMap.set(attribute?.columnName ?? column, attribute)] *)
Definition attributeMapStep (attributeMap : list (string * option Attribute))
    (entry : string * option Attribute) : list (string * option Attribute) :=
  let '(column, attribute) := entry in
  mapSet (default column (attribute ≫= columnName)) attribute attributeMap.

(** The [attributeMap] of [insertQuery]: from the model when there is one,
    else from [attributeHash] when given. A truthy [model] that is no model
    class has no [modelDefinition] to read. *)
Definition insertAttributeMap (model : Value)
    (attributeHash : option (list (string * option Attribute)))
    : Result (list (string * option Attribute)) :=
  if truthy model then
    match model with
    | VModel m => Ok (fold_left attributeMapStep (physicalAttributes m) [])
    | _ => Throw (TypeError "Cannot read properties of undefined (reading 'physicalAttributes')")
    end
  else
    match attributeHash with
    | Some attributes => Ok (fold_left attributeMapStep attributes [])
    | None => Ok []
    end.

(** The validation at the head of [insertQuery]. *)
Definition insertCheckOptions (g : Generator) (options : option (gmap string Value))
    : Result unit :=
  match options with
  | Some o =>
      rejectInvalidOptions "insertQuery" (dialectName g)
        (INSERT_QUERY_SUPPORTABLE_OPTIONS (supportable g))
        INSERT_QUERY_SUPPORTED_OPTIONS o ;;
      if truthy (get o "ignoreDuplicates") && truthy (get o "updateOnDuplicate") then
        Throw (JsError "Options ignoreDuplicates and updateOnDuplicate cannot be used together")
      else Ok tt
  | None => Ok tt
  end.

(** [typeof value !== 'object' || value == null || Array.isArray(value)] is
    false on plain objects only. *)
Definition insertCheckValue (g : Generator) (value : Value)
    : Result (list (string * Value)) :=
  match value with
  | VObject entries => Ok entries
  | _ => Throw (JsError ("Invalid value: " +:+ inspect g value +:+ ". Expected an object."))
  end.

(** The [insertOptions] of [insertQuery], after the search path and
    exception modes have cleared [bindParam]. *)
Definition makeInsertOptions (g : Generator) (tableName : TableNameOrModel)
    (options : option (gmap string Value)) : InsertOptions :=
  let model :=
    match tableName with
    | TModel m => VModel m
    | _ => getOpt options "model"
    end in
  let spread := default ∅ options in
  let bindParam :=
    if isUndefined (getOpt options "bindParam") then BindInternal
    else BindCaller (getOpt options "bindParam") in
  if truthy (prependSearchPath g) || truthy (get spread "searchPath")
     || truthy (get spread "exception")
  then {| spread := spread; model := model; bindParam := BindUndefined |}
  else {| spread := spread; model := model; bindParam := bindParam |}.

(** [typeof insertOptions.bindParam === 'function'] *)
Definition bindParamIsFunction (b : BindParam) : bool :=
  match b with
  | BindInternal => true
  | BindCaller v => isFunction v
  | BindUndefined => false
  end.

(** One round of the loop over [Object.entries(valueHash)]: the state is
    [valueMap] and [bind]. *)
Definition insertValueStep (g : Generator) (insertOptions : InsertOptions)
    (attributeMap : list (string * option Attribute))
    (state : list (string * string) * Bind) (entry : string * Value)
    : list (string * string) * Bind :=
  let '(valueMap, bind) := state in
  let '(column, rowValue) := entry in
  if attributeAutoIncrement attributeMap column && nullish rowValue then
    (mapSet column "DEFAULT" valueMap, bind)
  else if isUndefined rowValue then
    (* Treat undefined values as non-existent *)
    (valueMap, bind)
  else
    let '(sql, bind') :=
      escape g rowValue
        (Some {| insertOptions := insertOptions;
                 attributeType := attributeTypeOf attributeMap column |}) bind in
    (mapSet column sql valueMap, bind').

(** Whether a round of the loop gives the entry's column a place in
    [valueMap]. *)
Definition rendersColumn (attributeMap : list (string * option Attribute))
    (entry : string * Value) : bool :=
  attributeAutoIncrement attributeMap entry.1 && nullish entry.2
  || negb (isUndefined entry.2).

Definition insertValueMap (g : Generator) (insertOptions : InsertOptions)
    (attributeMap : list (string * option Attribute))
    (valueHash : list (string * Value)) : list (string * string) * Bind :=
  fold_left (insertValueStep g insertOptions attributeMap) valueHash ([], []).

Definition returningFragment (g : Generator) (insertOptions : InsertOptions)
    (returnFields : list string) : string :=
  if truthy (get (spread insertOptions) "returning")
  then joinSQLFragments ["RETURNING"; join ", " returnFields]
  else EmptyString.

(** The locals [rowFragment] and [columnFragment] of [insertQuery]: the
    value list and the column list of the statement. *)
Definition rowFragment (valueMap : list (string * string)) : string :=
  join "," (map snd valueMap).

Definition columnFragment (g : Generator) (valueMap : list (string * string)) : string :=
  join "," (map (fun column => quoteIdentifier g (VString column)) (map fst valueMap)).

(** The head of [insertQuery], where it can throw: the checks, then
    [insertOptions] and [attributeMap]. *)
Definition insertPrelude (g : Generator) (tableName : TableNameOrModel)
    (value : Value) (options : option (gmap string Value))
    (attributeHash : option (list (string * option Attribute)))
    : Result (list (string * Value) * InsertOptions * list (string * option Attribute)) :=
  insertCheckOptions g options ;;
  entries ← insertCheckValue g value ;
  let insertOptions := makeInsertOptions g tableName options in
  attributeMap ← insertAttributeMap (model insertOptions) attributeHash ;
  Ok (entries, insertOptions, attributeMap).

(** [insertQuery]; the entropy is drawn from in the exception mode only. *)
Definition insertQuery (g : Generator) (tableName : TableNameOrModel)
    (value : Value) (options : option (gmap string Value))
    (attributeHash : option (list (string * option Attribute)))
    (entropy : Entropy) : Result QueryWithBindParams * Entropy :=
  match insertPrelude g tableName value options attributeHash with
  | Throw e => (Throw e, entropy)
  | Ok (entries, insertOptions, attributeMap) =>
      let valueHash :=
        removeNullishValuesFromHash g entries (default false (omitNull g)) in
      let '(valueMap, bind) := insertValueMap g insertOptions attributeMap valueHash in
      let returnFields := getReturnFields g insertOptions attributeMap in
      let returningFragment := returningFragment g insertOptions returnFields in
      let resultBind :=
        if bindParamIsFunction (bindParam insertOptions) then Some bind else None in
      if (length valueMap =? 0)%nat then
        (Ok {| query := joinSQLFragments [
                 "INSERT INTO";
                 quoteTable g tableName;
                 "DEFAULT VALUES";
                 returningFragment ];
               bindParams := resultBind |}, entropy)
      else
        let rowFragment := join "," (map snd valueMap) in
        let columnFragment :=
          join "," (map (fun column => quoteIdentifier g (VString column))
                        (map fst valueMap)) in
        let conflictFragment :=
          if truthy (get (spread insertOptions) "updateOnDuplicate")
          then generateUpdateOnDuplicateKeysFragment g insertOptions else EmptyString in
        if truthy (get (spread insertOptions) "exception") then
          let '(bytes, entropy') := randomBytes 8 entropy in
          let delimiter := "$func_" +:+ toHex bytes +:+ "$" in
          (Ok {| query := joinSQLFragments [
                   "CREATE OR REPLACE FUNCTION pg_temp.testfunc(OUT response "
                     +:+ quoteTable g tableName
                     +:+ ", OUT sequelize_caught_exception text) RETURNS RECORD AS";
                   delimiter;
                   "BEGIN INSERT INTO";
                   quoteTable g tableName;
                   "(" +:+ columnFragment +:+ ")";
                   "VALUES";
                   "(" +:+ rowFragment +:+ ")";
                   conflictFragment;
                   if truthy (get (spread insertOptions) "ignoreDuplicates")
                   then "ON CONFLICT DO NOTHING" else EmptyString;
                   "RETURNING * INTO response;";
                   "EXCEPTION WHEN unique_violation THEN GET STACKED DIAGNOSTICS sequelize_caught_exception = PG_EXCEPTION_DETAIL;";
                   "END;";
                   delimiter;
                   "LANGUAGE plpgsql;";
                   "SELECT (testfunc.response)." +:+
                     join ", (testfunc.response)." returnFields +:+
                     ", testfunc.sequelize_caught_exception FROM pg_temp.testfunc();";
                   "DROP FUNCTION IF EXISTS pg_temp.testfunc()" ];
                 bindParams := None |}, entropy')
        else
          (Ok {| query := joinSQLFragments [
                   "INSERT INTO";
                   quoteTable g tableName;
                   "(" +:+ columnFragment +:+ ")";
                   "VALUES";
                   "(" +:+ rowFragment +:+ ")";
                   conflictFragment;
                   if truthy (get (spread insertOptions) "ignoreDuplicates")
                   then "ON CONFLICT DO NOTHING" else EmptyString;
                   returningFragment ];
                 bindParams := resultBind |}, entropy)
  end.

End Postgres.

(** [ShowConstraintsQueryOptions]: the filters of [showConstraintsQuery]. *)
Module ShowConstraints.

Record Options := {
  columnName : option string;
  constraintName : option string;
  constraintType : option string;
}.

End ShowConstraints.

(** ** Db2QueryGeneratorTypeScript *)

Module Db2.

Import Js Util.


(** The local [schemasToSkip] of [listSchemasQuery]. *)
Definition schemasToSkip (g : Generator) (options : option (gmap string Value))
    : list Value :=
  let schemasToSkip := map VString (getTechnicalSchemaNames g) in
  match getOpt options "skip" with
  | VArray skip => (schemasToSkip ++ skip)%list
  | _ => schemasToSkip
  end.

Definition listSchemasQuery (g : Generator) (options : option (gmap string Value))
    : string :=
  joinSQLFragments [
    "SELECT SCHEMANAME AS " +:+ dq +:+ "schema" +:+ dq +:+ " FROM SYSCAT.SCHEMATA";
    "WHERE SCHEMANAME NOT LIKE 'SYS%' AND SCHEMANAME NOT IN (" +:+
      join ", " (map (escapeValue g) (schemasToSkip g options)) +:+ ")"
  ].

(** The fourth fragment of [listTablesQuery]: the schema predicate. *)
Definition listTablesSchemaFragment (g : Generator)
    (options : option (gmap string Value)) : string :=
  if truthy (getOpt options "schema")
  then "AND TABSCHEMA = " +:+ escapeValue g (getOpt options "schema")
  else "AND TABSCHEMA NOT LIKE 'SYS%' AND TABSCHEMA NOT IN (" +:+
         join ", " (map (fun schema => escapeValue g (VString schema))
                        (getTechnicalSchemaNames g)) +:+ ")".

Definition listTablesQuery (g : Generator) (options : option (gmap string Value))
    : string :=
  joinSQLFragments [
    "SELECT TABNAME AS " +:+ dq +:+ "tableName" +:+ dq +:+ ",";
    "TRIM(TABSCHEMA) AS " +:+ dq +:+ "schema" +:+ dq;
    "FROM SYSCAT.TABLES WHERE TYPE = 'T'";
    listTablesSchemaFragment g options;
    "ORDER BY TABSCHEMA, TABNAME"
  ].

Definition renameTableQuery (g : Generator)
    (beforeTableName afterTableName : TableNameOrModel)
    (options : option (gmap string Value)) : Result string :=
  match options with
  | Some o =>
      rejectInvalidOptions "renameTableQuery" (dialectName g)
        (RENAME_TABLE_QUERY_SUPPORTABLE_OPTIONS (supportable g)) EMPTY_SET o
  | None => Ok tt
  end ;;
  let beforeTable := extractTableDetails g beforeTableName in
  let afterTable := extractTableDetails g afterTableName in
  if decide (schema beforeTable <> schema afterTable) then
    Throw (JsError ("Moving tables between schemas is not supported by "
                    +:+ dialectName g +:+ " dialect."))
  else
    Ok ("RENAME TABLE " +:+ quoteTable g beforeTableName +:+ " TO " +:+
        quoteIdentifier g (VString (tableName afterTable))).

Definition truncateTableQuery (g : Generator) (tableName : TableNameOrModel)
    (options : option (gmap string Value)) : Result string :=
  match options with
  | Some o =>
      rejectInvalidOptions "truncateTableQuery" (dialectName g)
        (TRUNCATE_TABLE_QUERY_SUPPORTABLE_OPTIONS (supportable g)) EMPTY_SET o
  | None => Ok tt
  end ;;
  Ok ("TRUNCATE TABLE " +:+ quoteTable g tableName +:+ " IMMEDIATE").

(** [options.type?.toLowerCase() !== 'unique']: undefined when [type] is
    nullish; a value that is no string has no [toLowerCase] to call. *)
Definition typeIsNotUnique (options : gmap string Value) : Result bool :=
  match get options "type" with
  | VUndefined | VNull => Ok true
  | VString s => Ok (negb (String.eqb (toLowerCase s) "unique"))
  | _ => Throw (TypeError "options.type?.toLowerCase is not a function")
  end.

(** What [addIndexQuery] does with a call: throw, or hand it to the
    superclass method, which assembles the SQL. *)
Inductive AddIndexOutcome :=
| Rejected (e : Error)
| Delegated (tableOrModel : TableNameOrModel) (options : gmap string Value).

Definition addIndexDispatch (tableOrModel : TableNameOrModel)
    (options : gmap string Value) : AddIndexOutcome :=
  if hasKey options "include" && negb (truthy (get options "unique")) then
    match typeIsNotUnique options with
    | Throw e => Rejected e
    | Ok true =>
        Rejected (JsError "DB2 does not support non-unique indexes with INCLUDE syntax.")
    | Ok false => Delegated tableOrModel options
    end
  else Delegated tableOrModel options.

Definition addIndexQuery (g : Generator) (tableOrModel : TableNameOrModel)
    (options : gmap string Value) : Result string :=
  match addIndexDispatch tableOrModel options with
  | Rejected e => Throw e
  | Delegated tableOrModel options => superAddIndexQuery g tableOrModel options
  end.

Definition generateTransactionId (entropy : Entropy) : string * Entropy :=
  let '(bytes, entropy') := randomBytes 10 entropy in
  (toHex bytes, entropy').

(** [#getConstraintType]: the letter under which SYSCAT.TABCONST stores the
    type of a constraint. *)
Definition getConstraintType (type : string) : Result string :=
  if String.eqb type "CHECK" then Ok "K"
  else if String.eqb type "FOREIGN KEY" then Ok "F"
  else if String.eqb type "PRIMARY KEY" then Ok "P"
  else if String.eqb type "UNIQUE" then Ok "U"
  else Throw (JsError ("Constraint type " +:+ type +:+ " is not supported")).

(** The branches of the CASE on [c.TYPE] in the select list of
    [showConstraintsQuery], in their order: the letter and the constraint
    type it is read back as. *)
Definition constraintTypeCase : list (string * string) :=
  [("P", "PRIMARY KEY"); ("F", "FOREIGN KEY"); ("K", "CHECK"); ("U", "UNIQUE")].

(** How a CASE over these branches is written. *)
Definition caseText (subject : string) (branches : list (string * string)) : string :=
  "CASE " +:+ subject +:+ " " +:+
  String.concat EmptyString
    (map (fun branch : string * string =>
            "WHEN '" +:+ branch.1 +:+ "' THEN '" +:+ branch.2 +:+ "' ") branches) +:+
  "ELSE NULL END".

(** The third fragment of [showConstraintsQuery]. *)
Definition constraintTypeColumn : string :=
  "CASE c.TYPE WHEN 'P' THEN 'PRIMARY KEY' WHEN 'F' THEN 'FOREIGN KEY' WHEN 'K' THEN 'CHECK' WHEN 'U' THEN 'UNIQUE' ELSE NULL END AS "
  +:+ dq +:+ "constraintType" +:+ dq +:+ ",".

(** [options?.constraintType ? `AND c.TYPE = ...` : ''] *)
Definition constraintTypeFragment (g : Generator)
    (options : option ShowConstraints.Options) : Result string :=
  let constraintType := options ≫= ShowConstraints.constraintType in
  if truthy (ofOptString constraintType) then
    code ← getConstraintType (default EmptyString constraintType) ;
    Ok ("AND c.TYPE = " +:+ escapeValue g (VString code))
  else Ok EmptyString.

Definition showConstraintsQuery (g : Generator) (tableOrModel : TableNameOrModel)
    (options : option ShowConstraints.Options) : Result string :=
  let table := extractTableDetails g tableOrModel in
  let columnName := ofOptString (options ≫= ShowConstraints.columnName) in
  let constraintName := ofOptString (options ≫= ShowConstraints.constraintName) in
  typeFragment ← constraintTypeFragment g options ;
  Ok (joinSQLFragments [
    "SELECT TRIM(c.TABSCHEMA) AS " +:+ dq +:+ "constraintSchema" +:+ dq +:+ ",";
    "c.CONSTNAME AS " +:+ dq +:+ "constraintName" +:+ dq +:+ ",";
    constraintTypeColumn;
    "TRIM(c.TABSCHEMA) AS " +:+ dq +:+ "tableSchema" +:+ dq +:+ ",";
    "c.TABNAME AS " +:+ dq +:+ "tableName" +:+ dq +:+ ",";
    "k.COLNAME AS " +:+ dq +:+ "columnNames" +:+ dq +:+ ",";
    "TRIM(r.REFTABSCHEMA) AS " +:+ dq +:+ "referencedTableSchema" +:+ dq +:+ ",";
    "r.REFTABNAME AS " +:+ dq +:+ "referencedTableName" +:+ dq +:+ ",";
    "fk.COLNAME AS " +:+ dq +:+ "referencedColumnNames" +:+ dq +:+ ",";
    "CASE r.DELETERULE WHEN 'A' THEN 'NO ACTION' WHEN 'C' THEN 'CASCADE' WHEN 'N' THEN 'SET NULL' WHEN 'R' THEN 'RESTRICT' ELSE NULL END AS "
      +:+ dq +:+ "deleteAction" +:+ dq +:+ ",";
    "CASE r.UPDATERULE WHEN 'A' THEN 'NO ACTION' WHEN 'R' THEN 'RESTRICT' ELSE NULL END AS "
      +:+ dq +:+ "updateAction" +:+ dq +:+ ",";
    "ck.TEXT AS " +:+ dq +:+ "definition" +:+ dq;
    "FROM SYSCAT.TABCONST c";
    "LEFT JOIN SYSCAT.REFERENCES r ON c.CONSTNAME = r.CONSTNAME AND c.TABNAME = r.TABNAME AND c.TABSCHEMA = r.TABSCHEMA";
    "LEFT JOIN SYSCAT.KEYCOLUSE k ON c.CONSTNAME = k.CONSTNAME AND c.TABNAME = k.TABNAME AND c.TABSCHEMA = k.TABSCHEMA";
    "LEFT JOIN SYSCAT.KEYCOLUSE fk ON r.REFKEYNAME = fk.CONSTNAME";
    "LEFT JOIN SYSCAT.CHECKS ck ON c.CONSTNAME = ck.CONSTNAME AND c.TABNAME = ck.TABNAME AND c.TABSCHEMA = ck.TABSCHEMA";
    "WHERE c.TABNAME = " +:+ escapeValue g (VString (tableName table));
    "AND c.TABSCHEMA = " +:+ escapeValue g (ofOptString (schema table));
    if truthy columnName then "AND k.COLNAME = " +:+ escapeValue g columnName
    else EmptyString;
    if truthy constraintName then "AND c.CONSTNAME = " +:+ escapeValue g constraintName
    else EmptyString;
    typeFragment;
    "ORDER BY c.CONSTNAME, k.COLSEQ, fk.COLSEQ"
  ]).

End Db2.

(** ** IBMiQueryGenerator *)

Module IBMi.

Import Js Util.

Definition CREATE_TABLE_QUERY_SUPPORTED_OPTIONS : gset string :=
  list_to_set ["uniqueKeys"].

Definition nl : string := String (ascii_of_nat 10) EmptyString.

(** [`${tableName}`] *)
Definition templateOf (tableName : TableNameOrModel) : string :=
  match tableName with
  | TString name => name
  | TObject _ => "[object Object]"
  | TModel m => sourceText m
  end.

(** [options.uniqueKeys]: an array of [{fields}] or an object from index
    names to [{fields}]. *)
Inductive UniqueKeys :=
| UniqueKeyArray (keys : list (list string))
| UniqueKeyObject (keys : list (string * list string)).

(** [columns.fields] of one entry *)
Definition fieldsOf (columns : Value) : option (list string) :=
  match columns with
  | VObject entries => lookupEntry "fields" entries ≫= asStringArray
  | _ => None
  end.

(** Reads [options.uniqueKeys] at its declared type. *)
Definition asUniqueKeys (v : Value) : option UniqueKeys :=
  match v with
  | VArray items => UniqueKeyArray <$> mapM fieldsOf items
  | VObject entries =>
      UniqueKeyObject <$>
        mapM (fun entry : string * Value => pair entry.1 <$> fieldsOf entry.2) entries
  | _ => None
  end.

(** The loop over [attributes]: the state is [primaryKeys] and [attrStr]. *)
Definition columnStep (g : Generator) (state : list string * list string)
    (entry : string * string) : list string * list string :=
  let '(primaryKeys, attrStr) := state in
  let '(attr, dataType) := entry in
  if includes "PRIMARY KEY" dataType then
    ((primaryKeys ++ [attr])%list,
     (attrStr ++ [quoteIdentifier g (VString attr) +:+ " " +:+
                  replace "PRIMARY KEY" EmptyString dataType])%list)
  else
    (primaryKeys,
     (attrStr ++ [quoteIdentifier g (VString attr) +:+ " " +:+ dataType])%list).

Definition columns (g : Generator) (attributes : list (string * string))
    : list string * list string :=
  fold_left (columnStep g) attributes ([], []).

(** [uniqueIsPrimary]: the sorted columns of the unique key against the
    sorted primary keys. *)
Definition uniqueIsPrimary (primaryKeys fields : list string) : bool :=
  let sortedPrimaryKeys := sort primaryKeys in
  let sortedColumnFields := sort fields in
  (length sortedColumnFields =? length primaryKeys)%nat &&
  everyEqual sortedColumnFields sortedPrimaryKeys.

(** What one round of [each(options.uniqueKeys, ...)] appends to
    [attributesClause]; [indexName] is a string for an object's key and a
    number for an array's index. *)
Definition uniqueKeyClause (g : Generator) (tableName : TableNameOrModel)
    (primaryKeys : list string) (indexName : option string)
    (fields : list string) : string :=
  if uniqueIsPrimary primaryKeys fields then EmptyString
  else
    let indexName :=
      match indexName with
      | Some name => name
      | None => "uniq_" +:+ templateOf tableName +:+ "_" +:+ join "_" fields
      end in
    ", CONSTRAINT " +:+ quoteIdentifier g (VString indexName) +:+ " UNIQUE (" +:+
      join ", " (map (fun field => quoteIdentifier g (VString field)) fields) +:+ ")".

Definition uniqueKeyClauses (g : Generator) (tableName : TableNameOrModel)
    (primaryKeys : list string) (uniqueKeys : UniqueKeys) : list string :=
  match uniqueKeys with
  | UniqueKeyArray keys => map (uniqueKeyClause g tableName primaryKeys None) keys
  | UniqueKeyObject keys =>
      map (fun key : string * list string =>
             uniqueKeyClause g tableName primaryKeys (Some key.1) key.2) keys
  end.

(** [createTableQuery]. [each(options.uniqueKeys, ...)] visits the entries
    of an array or of an object, the characters of a string, and nothing of
    a number, a boolean or a function (taken to have no enumerable property
    of its own); an entry visited that has no [fields] to spread makes the
    call throw, and so does a character. The entries are read at their
    declared type, [{fields: string[]}]. *)
Definition createTableQuery (g : Generator) (tableName : TableNameOrModel)
    (attributes : list (string * string))
    (options : option (gmap string Value)) : Result string :=
  match options with
  | Some o =>
      rejectInvalidOptions "createTableQuery" (dialectName g)
        (CREATE_TABLE_QUERY_SUPPORTABLE_OPTIONS (supportable g))
        CREATE_TABLE_QUERY_SUPPORTED_OPTIONS o
  | None => Ok tt
  end ;;
  let '(primaryKeys, attrStr) := columns g attributes in
  let attributesClause := join ", " attrStr in
  let pkString :=
    join ", " (map (fun pk => quoteIdentifier g (VString pk)) primaryKeys) in
  uniqueClauses ←
    (if truthy (getOpt options "uniqueKeys") then
       match getOpt options "uniqueKeys" with
       | VArray _ | VObject _ =>
           match asUniqueKeys (getOpt options "uniqueKeys") with
           | Some uniqueKeys => Ok (uniqueKeyClauses g tableName primaryKeys uniqueKeys)
           | None => Throw (TypeError "columns.fields is not iterable")
           end
       | VString _ => Throw (TypeError "columns.fields is not iterable")
       | _ => Ok []
       end
     else Ok []) ;
  let attributesClause := attributesClause +:+ join EmptyString uniqueClauses in
  let attributesClause :=
    if (0 <? String.length pkString)%nat
    then attributesClause +:+ ", PRIMARY KEY (" +:+ pkString +:+ ")"
    else attributesClause in
  let quotedTable := quoteTable g tableName in
  Ok ("BEGIN" +:+ nl +:+
      "    DECLARE CONTINUE HANDLER FOR SQLSTATE VALUE '42710'" +:+ nl +:+
      "      BEGIN END;" +:+ nl +:+
      "      CREATE TABLE " +:+ quotedTable +:+ " (" +:+ attributesClause +:+ ");" +:+ nl +:+
      "      END").


(** [insertQuery]: the query of the superclass method, read back through
    FINAL TABLE when it ends in a semicolon. [super] is the inherited
    method, [args] what it is called with. *)
Definition insertQuery {Args : Type} (super : Args -> QueryWithBindParams)
    (args : Args) : QueryWithBindParams :=
  let result := super args in
  match lastChar (query result) with
  | Some ";"%char =>
      {| query := "SELECT * FROM FINAL TABLE (" +:+ dropLast (query result) +:+ ")";
         bindParams := bindParams result |}
  | _ => result
  end.

(** [selectQuery]: the final semicolon is removed. *)
Definition selectQuery {Args : Type} (super : Args -> string) (args : Args) : string :=
  let query := super args in
  match lastChar query with
  | Some ";"%char => dropLast query
  | _ => query
  end.

Definition bulkInsertQuery {Args : Type} (super : Args -> string) (args : Args)
    : string :=
  let query := super args in
  match lastChar query with
  | Some ";"%char => "SELECT * FROM FINAL TABLE (" +:+ dropLast query +:+ ")"
  | _ => query
  end.

(** *** [changeColumnQuery]

    [definition.replace(/.+?(?=REFERENCES)/, '')]: the pattern matches at
    the first place from which one or more characters, none a line
    terminator, lead to a point where REFERENCES follows, and as few of them
    as possible; the match is taken out. A dot does not match the line
    terminators: line feed, carriage return, U+2028 and U+2029, the last two
    three bytes long in these byte strings. *)

(** The length in bytes of the line terminator that starts the string, or
    zero when none does. *)
Definition lineTerminator (s : string) : nat :=
  match s with
  | String c _ =>
      if Ascii.eqb c (ascii_of_nat 10) || Ascii.eqb c (ascii_of_nat 13) then 1
      else if String.prefix
                (String (ascii_of_nat 226) (String (ascii_of_nat 128)
                   (String (ascii_of_nat 168) EmptyString))) s
              || String.prefix
                   (String (ascii_of_nat 226) (String (ascii_of_nat 128)
                      (String (ascii_of_nat 169) EmptyString))) s
      then 3 else 0
  | EmptyString => 0
  end.

(** [.+?(?=REFERENCES)] once a first character is matched: the text from
    the nearest point where REFERENCES follows, reached over characters
    that are no line terminators. *)
Fixpoint lookaheadReferences (s : string) : option string :=
  if String.prefix "REFERENCES" s then Some s
  else match s with
       | EmptyString => None
       | String _ rest =>
           if (lineTerminator s =? 0)%nat then lookaheadReferences rest else None
       end.

(** A match of the pattern that starts at the head of the string: what is
    left after it. *)
Definition matchReferences (s : string) : option string :=
  match s with
  | EmptyString => None
  | String _ rest =>
      if (lineTerminator s =? 0)%nat then lookaheadReferences rest else None
  end.

(** The replacement: the first match from the left is taken out. [inside]
    counts the bytes still to pass of a line terminator, within which no
    match starts. *)
Fixpoint removeBeforeReferences (inside : nat) (s : string) : string :=
  match s with
  | EmptyString => EmptyString
  | String c rest =>
      match inside with
      | S inside' => String c (removeBeforeReferences inside' rest)
      | O =>
          match matchReferences s with
          | Some tail => tail
          | None => String c (removeBeforeReferences (lineTerminator s - 1) rest)
          end
      end
  end.

(** The loop over [attributes]: the state is [attrString] and
    [constraintString]. *)
Definition changeColumnStep (g : Generator) (state : list string * list string)
    (entry : string * string) : list string * list string :=
  let '(attrString, constraintString) := state in
  let '(attributeName, definition) := entry in
  if includes "REFERENCES" definition then
    let attrName := quoteIdentifier g (VString attributeName) in
    let definition := removeBeforeReferences 0 definition in
    let foreignKey := quoteIdentifier g (VString attributeName) in
    (attrString,
     (constraintString
      ++ [foreignKey +:+ " FOREIGN KEY (" +:+ attrName +:+ ") " +:+ definition])%list)
  else
    ((attrString
      ++ [dq +:+ attributeName +:+ dq +:+ " SET DATA TYPE " +:+ definition])%list,
     constraintString).

Definition changeColumnQuery (g : Generator) (tableName : TableNameOrModel)
    (attributes : list (string * string)) : string :=
  let '(attrString, constraintString) :=
    fold_left (changeColumnStep g) attributes ([], []) in
  let finalQuery := EmptyString in
  let finalQuery :=
    if (0 <? length attrString)%nat then
      (finalQuery +:+ "ALTER COLUMN " +:+ join ", " attrString) +:+
      (if (0 <? length constraintString)%nat then " " else EmptyString)
    else finalQuery in
  let finalQuery :=
    if (0 <? length constraintString)%nat
    then finalQuery +:+ "ADD CONSTRAINT " +:+ join ", " constraintString
    else finalQuery in
  "ALTER TABLE " +:+ quoteTable g tableName +:+ " " +:+ finalQuery.

(** *** [attributeToSQL]

    The attribute as the method reads it. A data type is an object of the
    core package; what the method asks of it is recorded here: its text
    ([type.toString(...)]), its values and SQL when it is an ENUM, the SQL
    [attributeTypeToSql] makes of it, and whether it is binary. *)
Module Column.

Record DataType := {
  text : string;
  enum : option (string * list Value);
  sql : string;
  binary : bool;
}.

(** [attribute.references] *)
Record References := {
  table : TableNameOrModel;
  key : option string;
}.

Record Attribute := {
  type : DataType;
  field : option string;
  allowNull : option bool;
  autoIncrement : bool;
  defaultValue : Value;
  unique : Value;
  primaryKey : bool;
  first : bool;
  after : option string;
  references : option References;
  onDelete : option string;
  onUpdate : option string;
}.

(** The [options] of [attributeToSQL]. *)
Record Options := {
  context : option string;
  tableName : option TableNameOrModel;
  foreignKey : option string;
}.

End Column.

Definition upperChar (c : ascii) : ascii :=
  let n := nat_of_ascii c in
  if (97 <=? n)%nat && (n <=? 122)%nat then ascii_of_nat (n - 32) else c.

(** [s.toUpperCase()] on these byte strings (UTF-8). The letters a to z
    are folded, and so are the two letters outside ASCII whose capital is an
    ASCII letter: the long s (U+017F, bytes C5 BF), whose capital is S, and
    the dotless i (U+0131, bytes C4 B1), whose capital is I; with them the
    comparison of the result with the word CASCADE is decided as JavaScript
    decides it. Any other character is left as it is: the referential
    actions are words in ASCII letters, and the capitals of other letters
    outside ASCII are not modelled. *)
Fixpoint toUpperCase (s : string) : string :=
  match s with
  | EmptyString => EmptyString
  | String c rest =>
      match rest with
      | String d rest' =>
          if Ascii.eqb c (ascii_of_nat 197) && Ascii.eqb d (ascii_of_nat 191)
          then String "S" (toUpperCase rest')
          else if Ascii.eqb c (ascii_of_nat 196) && Ascii.eqb d (ascii_of_nat 177)
          then String "I" (toUpperCase rest')
          else String (upperChar c) (toUpperCase rest)
      | EmptyString => String (upperChar c) EmptyString
      end
  end.

Definition typeWithoutDefault : list string := ["BLOB"].

(** [!isPlainObject(attribute)]: a bare data type stands for [{type}]. *)
Definition ofDataType (type : Column.DataType) : Column.Attribute :=
  {| Column.type := type; Column.field := None; Column.allowNull := None;
     Column.autoIncrement := false; Column.defaultValue := VUndefined;
     Column.unique := VUndefined; Column.primaryKey := false; Column.first := false;
     Column.after := None; Column.references := None; Column.onDelete := None;
     Column.onUpdate := None |}.

(** The text a template literal makes of [options.tableName]. *)
Definition templateOfOption (tableName : option TableNameOrModel) : string :=
  match tableName with
  | Some t => templateOf t
  | None => "undefined"
  end.

(** [attributeToSQL]; [defaultValueSchemable] is the helper of the core
    package, handed in. The default value the method writes back into the
    attribute (1 for true, 0 for false) is the one escaped. *)
Definition attributeToSQL (g : Generator) (defaultValueSchemable : Value -> bool)
    (attribute : Column.Attribute + Column.DataType)
    (options : option Column.Options) : string :=
  let attribute :=
    match attribute with
    | inl attribute => attribute
    | inr type => ofDataType type
    end in
  let context := options ≫= Column.context in
  let contextIs name := String.eqb (default EmptyString context) name in
  let attributeString := Column.text (Column.type attribute) in
  let template :=
    match Column.enum (Column.type attribute) with
    | Some (enumSql, values) =>
        let template := enumSql in
        let template :=
          if truthy (ofOptString context)
          then template +:+ (if contextIs "changeColumn" then " ADD" else EmptyString)
          else template in
        template +:+ " CHECK (" +:+
          quoteIdentifier g (ofOptString (Column.field attribute)) +:+ " IN(" +:+
          join ", " (map (escapeValue g) values) +:+ "))"
    | None => Column.sql (Column.type attribute)
    end in
  let template :=
    match Column.allowNull attribute with
    | Some false => template +:+ " NOT NULL"
    | Some true =>
        if contextIs "changeColumn"
        then template +:+ " DROP NOT NULL" else template
    | None => template
    end in
  let template :=
    if Column.autoIncrement attribute
    then template +:+ " GENERATED BY DEFAULT AS IDENTITY (START WITH 1, INCREMENT BY 1)"
    else template in
  let template :=
    if negb (bool_decide (attributeString ∈ typeWithoutDefault))
       && negb (Column.binary (Column.type attribute))
       && defaultValueSchemable (Column.defaultValue attribute)
    then
      let defaultValue :=
        match Column.defaultValue attribute with
        | VBool true => VNumber 1
        | VBool false => VNumber 0
        | value => value
        end in
      template +:+ " DEFAULT " +:+ escapeValue g defaultValue
    else template in
  let template :=
    if match Column.unique attribute with VBool true => true | _ => false end
       && negb (Column.primaryKey attribute)
    then template +:+ " UNIQUE" else template in
  let template :=
    if Column.primaryKey attribute then template +:+ " PRIMARY KEY" else template in
  let template :=
    if Column.first attribute then template +:+ " FIRST" else template in
  let template :=
    if truthy (ofOptString (Column.after attribute))
    then template +:+ " AFTER " +:+
         quoteIdentifier g (ofOptString (Column.after attribute))
    else template in
  match Column.references attribute with
  | Some references =>
      let foreignKey := ofOptString (options ≫= Column.foreignKey) in
      let template :=
        if contextIs "addColumn" && truthy foreignKey
        then
          let attrName := quoteIdentifier g foreignKey in
          let fkName :=
            quoteIdentifier g
              (VString (templateOfOption (options ≫= Column.tableName) +:+ "_" +:+
                        attrName +:+ "_foreign_idx")) in
          template +:+ " ADD CONSTRAINT " +:+ fkName +:+ " FOREIGN KEY (" +:+
            attrName +:+ ")"
        else template in
      let template :=
        template +:+ " REFERENCES " +:+ quoteTable g (Column.table references) in
      let template :=
        if truthy (ofOptString (Column.key references))
        then template +:+ " (" +:+
             quoteIdentifier g (ofOptString (Column.key references)) +:+ ")"
        else template +:+ " (" +:+ quoteIdentifier g (VString "id") +:+ ")" in
      let template :=
        if truthy (ofOptString (Column.onDelete attribute))
        then template +:+ " ON DELETE " +:+
             toUpperCase (default EmptyString (Column.onDelete attribute))
        else template in
      if truthy (ofOptString (Column.onUpdate attribute))
         && negb (String.eqb
                    (toUpperCase (default EmptyString (Column.onUpdate attribute)))
                    "CASCADE")
      then template +:+ " ON UPDATE " +:+
           toUpperCase (default EmptyString (Column.onUpdate attribute))
      else template
  | None => template
  end.

End IBMi.

(** ** A Postgres and a Db2 instance

    Modelled from the spec: the escaper, the quoting, the internals objects
    and the imported helpers are not under src/. These instances follow
    sections 4.1 and 4.5 (identifiers in double quotes with embedded quotes
    doubled, strings in single quotes, the technical schema and database
    names of the dialect) and are what the examples run on. *)

Module Sample.

Import Js Util.

Fixpoint doubleChar (c : ascii) (s : string) : string :=
  match s with
  | EmptyString => EmptyString
  | String d rest =>
      if Ascii.eqb c d then String d (String d (doubleChar c rest))
      else String d (doubleChar c rest)
  end.

(** Modelled from the spec: [quoteIdentifier] of the abstract generator,
    section 4.1: the name in the dialect's quote character, embedded quotes
    doubled. *)
Definition quoteIdentifier (v : Value) : string :=
  match v with
  | VString s => dq +:+ doubleChar (ascii_of_nat 34) s +:+ dq
  | _ => dq +:+ "undefined" +:+ dq
  end.

Definition defaultSchema (dialect : string) : string :=
  if String.eqb dialect "postgres" then "public" else "DB2INST1".

(** Modelled from the spec: [extractTableDetails], section 3: the schema
    defaults to the dialect's default schema. *)
Definition extractTableDetails (dialect : string) (t : TableNameOrModel)
    : TableDetails :=
  match t with
  | TString name => {| tableName := name; schema := Some (defaultSchema dialect) |}
  | TObject table =>
      {| tableName := tableName table;
         schema := Some (default (defaultSchema dialect) (schema table)) |}
  | TModel m => {| tableName := modelTable m; schema := Some (defaultSchema dialect) |}
  end.

(** Modelled from the spec: [quoteTable], section 4.1: [schema.table] with
    each segment quoted, the schema segment left out for the default
    schema. *)
Definition quoteTable (dialect : string) (t : TableNameOrModel) : string :=
  let table := extractTableDetails dialect t in
  match schema table with
  | Some s =>
      if String.eqb s (defaultSchema dialect) then quoteIdentifier (VString (tableName table))
      else quoteIdentifier (VString s) +:+ "." +:+ quoteIdentifier (VString (tableName table))
  | None => quoteIdentifier (VString (tableName table))
  end.

(** Modelled from the spec: [escape], section 4.1: strings quoted with
    their quotes doubled, numbers bare, booleans as truth literals. *)
Definition literal (v : Value) : string :=
  match v with
  | VNull | VUndefined => "NULL"
  | VBool true => "true"
  | VBool false => "false"
  | VNumber n => pretty n
  | VString s => "'" +:+ doubleChar "'" s +:+ "'"
  | _ => "?"
  end.

(** Modelled from the spec: [escape] with the [bindParam] of the internals,
    neither under src/. Section 4.4: values are inlined or, when bind
    parameters are in use, replaced by positional markers with an ordered
    collection of the values: with the internals' [bindParam] every value,
    null included, goes to [bind] under the next [sequelize_<n>] key and its
    marker is the SQL; otherwise the value is written as its literal. *)
Definition escape (v : Value) (options : option EscapeOptions) (bind : Bind)
    : string * Bind :=
  match options with
  | Some o =>
      match bindParam (insertOptions o) with
      | BindInternal =>
          let key := "sequelize_" +:+ pretty (S (length bind)) in
          ("$" +:+ key, (bind ++ [(key, v)])%list)
      | _ => (literal v, bind)
      end
  | None => (literal v, bind)
  end.

(** Modelled from the spec: utils/format (removeNullishValuesFromHash) is
    not under src/; by its name and its flag, it drops the entries whose
    value is null or undefined when [omitNull] is set. *)
Definition removeNullishValuesFromHash (hash : list (string * Value)) (omitNull : bool)
    : list (string * Value) :=
  if omitNull then List.filter (fun entry => negb (nullish entry.2)) hash else hash.

(** Modelled from the spec: [getReturnFields] of the internals, section
    4.4: the explicit list given, else all columns. *)
Definition getReturnFields (options : InsertOptions)
    (attributeMap : list (string * option Attribute)) : list string :=
  let fields :=
    match get (spread options) "returning" with
    | VArray items => map quoteIdentifier items
    | _ => map (fun entry : string * option Attribute =>
                  quoteIdentifier (VString entry.1)) attributeMap
    end in
  match fields with
  | [] => ["*"]
  | _ => fields
  end.

(** Modelled from the spec: the upsert fragment of the internals, section
    4.5. *)
Definition generateUpdateOnDuplicateKeysFragment (options : InsertOptions) : string :=
  match get (spread options) "updateOnDuplicate" with
  | VArray items =>
      "ON CONFLICT DO UPDATE SET " +:+
      join "," (map (fun item => quoteIdentifier item +:+ "=EXCLUDED." +:+
                                 quoteIdentifier item) items)
  | _ => EmptyString
  end.

(** Modelled from the spec: [addIndexQuery] of the abstract generator,
    section 4.4, with the index name resolved by [resolveIndexName]. *)
Definition superAddIndexQuery (dialect : string) (t : TableNameOrModel)
    (options : gmap string Value) : Result string :=
  let table := extractTableDetails dialect t in
  match asStringArray (get options "fields") with
  | Some fields =>
      Ok (joinSQLFragments [
        "CREATE";
        if truthy (get options "unique") then "UNIQUE" else EmptyString;
        "INDEX";
        quoteIdentifier (VString (resolveIndexName table (get options "name") fields));
        "ON";
        quoteTable dialect t;
        "(" +:+ join ", " (map (fun f => quoteIdentifier (VString f)) fields) +:+ ")" ])
  | None => Throw (JsError "Property fields is required to build an index name")
  end.

(** Modelled from the spec: the supportable option keys of the abstract
    dialect, section 3, supersets of what the dialects support. *)
Definition supportable : SupportableOptions :=
  Build_SupportableOptions
    (list_to_set ["charset"; "collate"; "ctype"; "encoding"; "template"])
    (list_to_set ["conflictWhere"; "exception"; "ignoreDuplicates"; "returning";
                  "updateOnDuplicate"])
    (list_to_set ["cascade"; "ifExists"])
    (list_to_set ["changeSchema"])
    (list_to_set ["cascade"; "restartIdentity"])
    (list_to_set ["collate"; "charset"; "engine"; "rowFormat"; "comment";
                  "initialAutoIncrement"; "uniqueKeys"])
    (list_to_set ["ifNotExists"]).

(** The column definition [attributeToSQL] makes of the normalized data
    type in [addColumnQuery]: here a data type given by its SQL. *)
Definition normalizedAttributeToSQL (t : TableNameOrModel) (key : string)
    (dataType : Value) : string :=
  match dataType with
  | VString sql => sql
  | _ => "INTEGER"
  end.

(** [inspect] of node:util on the scalars; arrays, objects and functions
    are abridged. *)
Definition inspect (v : Value) : string :=
  match v with
  | VUndefined => "undefined"
  | VNull => "null"
  | VString s => "'" +:+ s +:+ "'"
  | VNumber n => pretty n
  | VBool true => "true"
  | VBool false => "false"
  | VArray _ => "[Array]"
  | VObject _ => "[Object]"
  | VFunction _ | VModel _ => "[Function]"
  end.

Definition generator (dialect : string)
    (technicalDatabases technicalSchemas : list string) : Generator :=
  Build_Generator dialect None VUndefined supportable
    quoteIdentifier (quoteTable dialect) (extractTableDetails dialect)
    escape removeNullishValuesFromHash
    technicalDatabases technicalSchemas
    getReturnFields generateUpdateOnDuplicateKeysFragment
    (superAddIndexQuery dialect) normalizedAttributeToSQL inspect.

Definition postgres : Generator :=
  generator "postgres" ["postgres"]
    ["information_schema"; "tiger"; "tiger_data"; "topology"].

Definition db2 : Generator :=
  generator "db2" [] ["ERRORSCHEMA"; "NULLID"; "SQLJ"].

Definition ibmi : Generator :=
  generator "ibmi" [] ["QSYS"; "QSYS2"].

(** An entropy source that hands out 0, 1, 2, ... *)
Definition counting : Entropy :=
  fun i => default x00 (Byte.of_N (N.of_nat i mod 256)).

End Sample.

(** ** The operations that validate their options

    A call of one of the methods that hand their options object to
    [rejectInvalidOptions], with the set of keys it validates against. *)

Inductive Call :=
| PostgresCreateDatabase (database : string)
| PostgresInsert (tableName : TableNameOrModel) (value : Js.Value)
    (attributeHash : option (list (string * option Js.Attribute)))
    (entropy : Util.Entropy)
| Db2DropSchema (schemaName : string)
| Db2RenameTable (beforeTableName afterTableName : TableNameOrModel)
| Db2TruncateTable (tableName : TableNameOrModel)
| IBMiCreateTable (tableName : TableNameOrModel) (attributes : list (string * string))
| IBMiAddColumn (table : TableNameOrModel) (key : string) (dataType : Js.Value).

Definition methodName (c : Call) : string :=
  match c with
  | PostgresCreateDatabase _ => "createDatabaseQuery"
  | PostgresInsert _ _ _ _ => "insertQuery"
  | Db2DropSchema _ => "dropSchemaQuery"
  | Db2RenameTable _ _ => "renameTableQuery"
  | Db2TruncateTable _ => "truncateTableQuery"
  | IBMiCreateTable _ _ => "createTableQuery"
  | IBMiAddColumn _ _ _ => "addColumnQuery"
  end.




(** ** The operations that take options without validating them

    A call of one of the methods that take an options object and do not
    hand it to [rejectInvalidOptions], with the option keys the method
    reads. [addIndexQuery] of Db2, which passes its options on to the
    superclass method, is apart. *)




(** * Properties *)

Import Js Util.

(** Closes a decidable goal on concrete data by evaluation. *)
Ltac by_evaluation := apply (bool_decide_unpack _); by vm_compute.

(** ** The option validator *)

Lemma rejectInvalidOptions_supported method dialect
    (supportableKeys supportedKeys : gset string) (options : gmap string Value) :
  dom options ⊆ supportedKeys ->
  rejectInvalidOptions method dialect supportableKeys supportedKeys options = Ok tt.
Proof.
  intros Hsub. unfold rejectInvalidOptions.
  destruct (decide (dom options ∖ supportedKeys = ∅)) as [_|Hne]; [done|].
  exfalso. apply Hne. apply elem_of_equiv_empty_L.
  intros key [Hin Hnot]%elem_of_difference. apply Hnot, Hsub, Hin.
Qed.

Lemma rejectInvalidOptions_unsupported method dialect
    (supportableKeys supportedKeys : gset string) (options : gmap string Value) key :
  key ∈ dom options -> key ∉ supportedKeys ->
  rejectInvalidOptions method dialect supportableKeys supportedKeys options
  = Throw (ConfigurationError method dialect (dom options ∖ supportedKeys)).
Proof.
  intros Hin Hnot. unfold rejectInvalidOptions.
  destruct (decide (dom options ∖ supportedKeys = ∅)) as [Hempty|_]; [|done].
  exfalso. set_solver.
Qed.

Lemma rejectInvalidOptions_cases method dialect
    (supportableKeys supportedKeys : gset string) (options : gmap string Value) :
  ((dom options ⊆ supportedKeys) /\
   (rejectInvalidOptions method dialect supportableKeys supportedKeys options = Ok tt))
  \/ (exists key, (key ∈ dom options) /\ (key ∉ supportedKeys) /\
      (rejectInvalidOptions method dialect supportableKeys supportedKeys options
       = Throw (ConfigurationError method dialect (dom options ∖ supportedKeys)))).
Proof.
  destruct (decide (dom options ∖ supportedKeys = ∅)) as [Hempty|Hne].
  - left. assert (dom options ⊆ supportedKeys) as Hsub by set_solver.
    split; [exact Hsub|]. by apply rejectInvalidOptions_supported.
  - right. apply set_choose_L in Hne as [key Hkey].
    apply elem_of_difference in Hkey as [Hin Hnot].
    exists key. split_and!; [done..|]. by eapply rejectInvalidOptions_unsupported.
Qed.



(** When the head of [insertQuery] passes, its parts are these. *)
Lemma insertPrelude_Ok g tableName value options attributeHash entries io am :
  Postgres.insertPrelude g tableName value options attributeHash = Ok (entries, io, am) ->
  Postgres.insertCheckOptions g options = Ok tt
  /\ value = VObject entries
  /\ io = Postgres.makeInsertOptions g tableName options
  /\ Postgres.insertAttributeMap (model io) attributeHash = Ok am.
Proof.
  unfold Postgres.insertPrelude.
  destruct (Postgres.insertCheckOptions g options) as [[]|e1]; simpl; [|done].
  unfold Postgres.insertCheckValue. destruct value; simpl; try done.
  destruct (Postgres.insertAttributeMap _ attributeHash) as [attributeMap|e3] eqn:Ham;
    simpl; [|done].
  intros [= -> <- ->]. by split_and!.
Qed.

(** The option keys are read from [insertOptions] as from [options]. *)
Lemma makeInsertOptions_spread g tableName options key :
  get (spread (Postgres.makeInsertOptions g tableName options)) key
  = getOpt options key.
Proof.
  unfold Postgres.makeInsertOptions. case_match; simpl; by destruct options.
Qed.

Lemma insertQuery_check_options g tableName value options attributeHash entropy e :
  Postgres.insertCheckOptions g options = Throw e ->
  Postgres.insertQuery g tableName value options attributeHash entropy
  = (Throw e, entropy).
Proof. unfold Postgres.insertQuery, Postgres.insertPrelude. by intros ->. Qed.


Lemma getOpt_insert_ne (o : gmap string Value) key key' v :
  key <> key' -> getOpt (Some (<[key := v]> o)) key' = getOpt (Some o) key'.
Proof. intros Hne. unfold getOpt, get. by rewrite lookup_insert_ne. Qed.







(** ** insertQuery: ignoreDuplicates against updateOnDuplicate *)

(** C2. With [options.ignoreDuplicates] and [options.updateOnDuplicate] both
    set (truthy), [insertQuery] throws whatever the table, the value payload,
    the attributes and the other option keys are; no query is returned and no
    random byte is drawn. The exception is that of the exclusivity check
    when every key passes the validator, and the validator's otherwise. *)
Theorem insertQuery_ignore_and_update_exclusive (g : Generator)
    (tableName : TableNameOrModel) (value : Value) (o : gmap string Value)
    (attributeHash : option (list (string * option Attribute)))
    (entropy : Entropy) :
  truthy (get o "ignoreDuplicates") = true ->
  truthy (get o "updateOnDuplicate") = true ->
  exists e,
    Postgres.insertQuery g tableName value (Some o) attributeHash entropy
    = (Throw e, entropy)
    /\ (dom o ⊆ Postgres.INSERT_QUERY_SUPPORTED_OPTIONS ->
        e = JsError "Options ignoreDuplicates and updateOnDuplicate cannot be used together")
    /\ (dom o ⊈ Postgres.INSERT_QUERY_SUPPORTED_OPTIONS ->
        e = ConfigurationError "insertQuery" (dialectName g)
              (dom o ∖ Postgres.INSERT_QUERY_SUPPORTED_OPTIONS)).
Proof.
  intros Hignore Hupdate.
  destruct (rejectInvalidOptions_cases "insertQuery" (dialectName g)
              (INSERT_QUERY_SUPPORTABLE_OPTIONS (supportable g))
              Postgres.INSERT_QUERY_SUPPORTED_OPTIONS o)
    as [[Hsub Hok]|(key & Hin & Hnot & Hthrow)].
  - exists (JsError "Options ignoreDuplicates and updateOnDuplicate cannot be used together").
    split_and!; [|done|done].
    apply insertQuery_check_options. unfold Postgres.insertCheckOptions.
    rewrite Hok. simpl. by rewrite Hignore, Hupdate.
  - eexists. split_and!; [| |done].
    + apply insertQuery_check_options. unfold Postgres.insertCheckOptions.
      by rewrite Hthrow.
    + intros Hsub. exfalso. apply Hnot, Hsub, Hin.
Qed.

(** [{ignoreDuplicates: true, updateOnDuplicate: ['name'], returning: true}] *)
Lemma insertQuery_ignore_and_update_exclusive_witness :
  exists e,
    Postgres.insertQuery Sample.postgres (TString "users")
      (VObject [("name", VString "a")])
      (Some {[ "ignoreDuplicates" := VBool true;
               "updateOnDuplicate" := VArray [VString "name"];
               "returning" := VBool true ]})
      None Sample.counting
    = (Throw e, Sample.counting)
    /\ e = JsError "Options ignoreDuplicates and updateOnDuplicate cannot be used together".
Proof.
  destruct (insertQuery_ignore_and_update_exclusive Sample.postgres (TString "users")
              (VObject [("name", VString "a")])
              {[ "ignoreDuplicates" := VBool true;
                 "updateOnDuplicate" := VArray [VString "name"];
                 "returning" := VBool true ]}
              None Sample.counting) as (e & Hq & He & _);
    [by vm_compute..|].
  exists e. split; [exact Hq|]. apply He.
  by_evaluation.
Defined.

(** ** Db2 addIndexQuery: INCLUDE needs a unique index *)

(** C3. On Db2, when the options have an [include] key, [options.unique] is
    falsy and [options.type] is not the word unique in any letter case, the
    call throws and is not handed to the superclass [addIndexQuery], which is
    where the SQL is assembled; with [options.type] a string or absent, as
    its type declares, the exception is the Error whose message states the
    rule. *)
Theorem db2_addIndexQuery_include_needs_unique (g : Generator)
    (tableOrModel : TableNameOrModel) (o : gmap string Value) :
  hasKey o "include" = true ->
  truthy (get o "unique") = false ->
  (forall s, get o "type" = VString s -> toLowerCase s <> "unique") ->
  (exists e, Db2.addIndexDispatch tableOrModel o = Db2.Rejected e
             /\ Db2.addIndexQuery g tableOrModel o = Throw e)
  /\ ((nullish (get o "type") = true \/ exists s, get o "type" = VString s) ->
      Db2.addIndexQuery g tableOrModel o
      = Throw (JsError "DB2 does not support non-unique indexes with INCLUDE syntax.")).
Proof.
  intros Hinclude Hunique Htype.
  unfold Db2.addIndexQuery, Db2.addIndexDispatch, Db2.typeIsNotUnique.
  rewrite Hinclude, Hunique. simpl.
  destruct (get o "type") as [| |b|n|s|items|entries|name|m] eqn:Hget; simpl;
    try (split; [eexists; split; reflexivity|];
         intros [Hnull|[s' Hs']]; (reflexivity || discriminate)).
  specialize (Htype s eq_refl).
  apply String.eqb_neq in Htype. rewrite Htype. simpl.
  split; [eexists; split; reflexivity|]. reflexivity.
Qed.

(** Scenario B of the specification: a non-unique index on [username] that
    includes [first_name] and [last_name]. *)
Lemma db2_addIndexQuery_include_needs_unique_witness :
  Db2.addIndexQuery Sample.db2 (TString "users")
    {[ "name" := VString "user_username";
       "fields" := VArray [VString "username"];
       "include" := VArray [VString "first_name"; VString "last_name"];
       "unique" := VBool false ]}
  = Throw (JsError "DB2 does not support non-unique indexes with INCLUDE syntax.").
Proof.
  destruct (db2_addIndexQuery_include_needs_unique Sample.db2 (TString "users")
           {[ "name" := VString "user_username";
              "fields" := VArray [VString "username"];
              "include" := VArray [VString "first_name"; VString "last_name"];
              "unique" := VBool false ]}) as [_ Hmessage].
  - by vm_compute.
  - by vm_compute.
  - intros s Hs. vm_compute in Hs. discriminate.
  - apply Hmessage. left. by vm_compute.
Defined.

(** ** renameTableQuery across schemas *)

(** C7. When the source and the target table are in different schemas:
    on Postgres the call throws unless [options.changeSchema] is set; with
    the flag set and the table name unchanged it returns the schema move
    [ALTER TABLE ... SET SCHEMA ...]; renaming the table and moving it at
    once throws, with or without the flag; and on Db2 the call throws
    whatever the options are. *)
Theorem renameTableQuery_across_schemas (g : Generator)
    (beforeTableName afterTableName : TableNameOrModel) :
  schema (extractTableDetails g beforeTableName)
    <> schema (extractTableDetails g afterTableName) ->
  (forall options, truthy (getOpt options "changeSchema") = false ->
     Postgres.renameTableQuery g beforeTableName afterTableName options
     = Throw (JsError "To move a table between schemas, you must set `options.changeSchema` to true."))
  /\ (forall options, truthy (getOpt options "changeSchema") = true ->
        tableName (extractTableDetails g beforeTableName)
          = tableName (extractTableDetails g afterTableName) ->
        Postgres.renameTableQuery g beforeTableName afterTableName options
        = Ok ("ALTER TABLE " +:+ quoteTable g beforeTableName +:+ " SET SCHEMA " +:+
              quoteIdentifier g (ofOptString (schema (extractTableDetails g afterTableName)))))
  /\ (forall options,
        tableName (extractTableDetails g beforeTableName)
          <> tableName (extractTableDetails g afterTableName) ->
        exists e,
          Postgres.renameTableQuery g beforeTableName afterTableName options = Throw e)
  /\ (forall options, exists e,
        Db2.renameTableQuery g beforeTableName afterTableName options = Throw e).
Proof.
  intros Hschema. split_and!.
  - intros options Hflag. unfold Postgres.renameTableQuery.
    rewrite decide_True by done. by rewrite Hflag.
  - intros options Hflag Hname. unfold Postgres.renameTableQuery.
    rewrite decide_True by done. rewrite Hflag. simpl.
    by rewrite decide_False by (intros Hne; by apply Hne).
  - intros options Hname. unfold Postgres.renameTableQuery.
    rewrite decide_True by done.
    destruct (truthy (getOpt options "changeSchema")); simpl; [|by eexists].
    rewrite decide_True by done. by eexists.
  - intros options. unfold Db2.renameTableQuery.
    destruct options as [o|]; simpl.
    + destruct (rejectInvalidOptions _ _ _ _ o) as [[]|e]; simpl; [|by eexists].
      rewrite decide_True by done. by eexists.
    + rewrite decide_True by done. by eexists.
Qed.

(** Scenario E of the specification: table [t] from schema [a] to schema
    [b], without and with the flag, and on Db2. *)
Lemma renameTableQuery_across_schemas_witness :
  Postgres.renameTableQuery Sample.postgres
    (TObject {| tableName := "t"; schema := Some "a" |})
    (TObject {| tableName := "t"; schema := Some "b" |}) None
  = Throw (JsError "To move a table between schemas, you must set `options.changeSchema` to true.")
  /\ Postgres.renameTableQuery Sample.postgres
       (TObject {| tableName := "t"; schema := Some "a" |})
       (TObject {| tableName := "t"; schema := Some "b" |})
       (Some {[ "changeSchema" := VBool true ]})
     = Ok ("ALTER TABLE " +:+ dq +:+ "a" +:+ dq +:+ "." +:+ dq +:+ "t" +:+ dq +:+
           " SET SCHEMA " +:+ dq +:+ "b" +:+ dq)
  /\ exists e,
       Db2.renameTableQuery Sample.db2
         (TObject {| tableName := "t"; schema := Some "a" |})
         (TObject {| tableName := "t"; schema := Some "b" |}) None
       = Throw e.
Proof.
  assert (forall g, g = Sample.postgres \/ g = Sample.db2 ->
            schema (extractTableDetails g (TObject {| tableName := "t"; schema := Some "a" |}))
            <> schema (extractTableDetails g (TObject {| tableName := "t"; schema := Some "b" |})))
    as Hschema by (intros g [-> | ->]; by vm_compute).
  destruct (renameTableQuery_across_schemas Sample.postgres
              (TObject {| tableName := "t"; schema := Some "a" |})
              (TObject {| tableName := "t"; schema := Some "b" |})
              (Hschema _ (or_introl eq_refl))) as (Hmissing & Hmove & _ & _).
  destruct (renameTableQuery_across_schemas Sample.db2
              (TObject {| tableName := "t"; schema := Some "a" |})
              (TObject {| tableName := "t"; schema := Some "b" |})
              (Hschema _ (or_intror eq_refl))) as (_ & _ & _ & Hdb2).
  split_and!.
  - by apply Hmissing.
  - rewrite Hmove; [by vm_compute|by vm_compute|by vm_compute].
  - apply Hdb2.
Defined.

(** ** Index names *)

(** C4. The derived index name is a function of the table and the field
    list alone, [<tableName>_<field1>_..._<fieldN>], and it is the name the
    add path resolves when it is given no name. [removeIndexQuery] called
    with the field list is the DROP INDEX of exactly that name in the
    table's schema: it is the statement of a removal by that name, and it is
    the same for every reference to the same table. So removing by fields
    targets the index that adding by fields has named. *)
Theorem removeIndexQuery_rederives_add_name (g : Generator)
    (tableOrModel : TableNameOrModel) (fields : list string) (name : Value)
    (options : option (gmap string Value)) :
  let table := extractTableDetails g tableOrModel in
  asString name = None ->
  truthy (getOpt options "cascade") && truthy (getOpt options "concurrently") = false ->
  resolveIndexName table name fields = tableName table +:+ "_" +:+ join "_" fields
  /\ Postgres.removeIndexQuery g tableOrModel (IndexAttributes fields) options
     = Ok (joinSQLFragments [
         "DROP INDEX";
         if truthy (getOpt options "concurrently") then "CONCURRENTLY" else EmptyString;
         if truthy (getOpt options "ifExists") then "IF EXISTS" else EmptyString;
         quoteIdentifier g (ofOptString (schema table)) +:+ "." +:+
           quoteIdentifier g (VString (resolveIndexName table name fields));
         if truthy (getOpt options "cascade") then "CASCADE" else EmptyString ])
  /\ Postgres.removeIndexQuery g tableOrModel (IndexAttributes fields) options
     = Postgres.removeIndexQuery g tableOrModel
         (IndexName (resolveIndexName table name fields)) options
  /\ (forall other : TableNameOrModel,
        extractTableDetails g other = table ->
        Postgres.removeIndexQuery g other (IndexAttributes fields) options
        = Postgres.removeIndexQuery g tableOrModel (IndexAttributes fields) options).
Proof.
  intros table Hname Hflags.
  assert (resolveIndexName table name fields = generateIndexName table fields)
    as Hresolve by (by destruct name).
  unfold Postgres.removeIndexQuery, Postgres.removeIndexName.
  rewrite Hflags, Hresolve. fold table. split_and!; try done.
  intros other Hother. by rewrite Hother.
Qed.

(** The index on [first_name, last_name] of [users], added without a name,
    is removed by its field list; the table given by name or as a record. *)
Lemma removeIndexQuery_rederives_add_name_witness :
  resolveIndexName (extractTableDetails Sample.postgres (TString "users")) VUndefined
    ["first_name"; "last_name"]
  = "users_first_name_last_name"
  /\ Postgres.removeIndexQuery Sample.postgres (TString "users")
       (IndexAttributes ["first_name"; "last_name"]) (Some {[ "ifExists" := VBool true ]})
     = Ok ("DROP INDEX IF EXISTS " +:+ dq +:+ "public" +:+ dq +:+ "." +:+ dq +:+
           "users_first_name_last_name" +:+ dq)
  /\ Postgres.removeIndexQuery Sample.postgres
       (TObject {| tableName := "users"; schema := None |})
       (IndexAttributes ["first_name"; "last_name"]) (Some {[ "ifExists" := VBool true ]})
     = Postgres.removeIndexQuery Sample.postgres (TString "users")
         (IndexName "users_first_name_last_name") (Some {[ "ifExists" := VBool true ]}).
Proof.
  destruct (removeIndexQuery_rederives_add_name Sample.postgres (TString "users")
              ["first_name"; "last_name"] VUndefined
              (Some {[ "ifExists" := VBool true ]}))
    as (Hname & Hdrop & Hbyname & Hsame); [by vm_compute..|].
  split_and!.
  - rewrite Hname. by vm_compute.
  - rewrite Hdrop. by vm_compute.
  - rewrite Hsame by (by vm_compute). rewrite Hbyname. by rewrite Hname.
Defined.

(** The test of the repository: an index on [first_name, last_name] of
    [users] added without a name is removed by its field list. *)
Example removeIndexQuery_users_by_fields :
  Sample.superAddIndexQuery "postgres" (TString "users")
    {[ "fields" := VArray [VString "first_name"; VString "last_name"] ]}
  = Ok ("CREATE INDEX " +:+ dq +:+ "users_first_name_last_name" +:+ dq +:+ " ON "
        +:+ dq +:+ "users" +:+ dq +:+ " (" +:+ dq +:+ "first_name" +:+ dq +:+ ", "
        +:+ dq +:+ "last_name" +:+ dq +:+ ")")
  /\ Postgres.removeIndexQuery Sample.postgres (TString "users")
       (IndexAttributes ["first_name"; "last_name"]) None
     = Ok ("DROP INDEX " +:+ dq +:+ "public" +:+ dq +:+ "." +:+ dq +:+
           "users_first_name_last_name" +:+ dq).
Proof. split; by vm_compute. Qed.

(** ** insertQuery: undefined, null and DEFAULT *)

Lemma mapGet_mapSet_eq {A} key (v : A) m : mapGet key (mapSet key v m) = Some v.
Proof.
  unfold mapGet. induction m as [|[k w] m IH]; simpl.
  - by rewrite String.eqb_refl.
  - destruct (String.eqb k key) eqn:Hk; simpl; by rewrite Hk.
Qed.

Lemma mapGet_mapSet_ne {A} key key' (v : A) m :
  key <> key' -> mapGet key' (mapSet key v m) = mapGet key' m.
Proof.
  intros Hne. unfold mapGet. induction m as [|[k w] m IH]; simpl.
  - by apply String.eqb_neq in Hne as ->.
  - destruct (String.eqb k key) eqn:Hk; simpl.
    + apply String.eqb_eq in Hk as ->. by apply String.eqb_neq in Hne as ->.
    + by rewrite IH.
Qed.

Lemma mapGet_None {A} key (m : list (string * A)) :
  mapGet key m = None <-> key ∉ map fst m.
Proof.
  unfold mapGet. induction m as [|[k w] m IH]; simpl.
  - split; [intros _; apply not_elem_of_nil|done].
  - rewrite not_elem_of_cons. destruct (String.eqb k key) eqn:Hk.
    + apply String.eqb_eq in Hk as ->. split; [done|]. by intros [? _].
    + apply String.eqb_neq in Hk. rewrite IH. split; [|by intros [_ ?]].
      intros ?. split; [|done]. by intros ->.
Qed.

(** A column that is not yet in the map goes to its end. *)
Lemma mapSet_fresh {A} key (v : A) m :
  mapGet key m = None -> mapSet key v m = (m ++ [(key, v)])%list.
Proof.
  unfold mapGet. induction m as [|[k w] m IH]; simpl; [done|].
  destruct (String.eqb k key); [done|]. intros H. by rewrite IH.
Qed.

Lemma mapSet_not_nil {A} key (v : A) m : mapSet key v m <> [].
Proof. destruct m as [|[k w] m]; simpl; [done|]. by destruct (String.eqb k key). Qed.

(** The loop over the value hash, from any state whose map has none of the
    columns still to come: the columns rendered are appended in order, the
    columns already there keep their SQL, and each entry's column ends with
    what its round set. *)
Lemma insertValueStep_fold g io am (rest : list (string * Value)) :
  forall (valueMap : list (string * string)) (bind : Bind),
    NoDup (map fst rest) ->
    (forall column, column ∈ map fst rest -> mapGet column valueMap = None) ->
    let final := fold_left (Postgres.insertValueStep g io am) rest (valueMap, bind) in
    map fst final.1
      = (map fst valueMap ++ map fst (List.filter (Postgres.rendersColumn am) rest))%list
    /\ (forall column, column ∉ map fst rest ->
          mapGet column final.1 = mapGet column valueMap)
    /\ (forall column rowValue, (column, rowValue) ∈ rest ->
          if Postgres.attributeAutoIncrement am column && nullish rowValue
          then mapGet column final.1 = Some "DEFAULT"
          else if isUndefined rowValue
          then mapGet column final.1 = None
          else exists bind',
                 mapGet column final.1
                 = Some (escape g rowValue
                           (Some {| insertOptions := io;
                                    attributeType := Postgres.attributeTypeOf am column |})
                           bind').1).
Proof.
  induction rest as [|[column0 rowValue0] rest IH]; intros valueMap bind Hnodup Hfresh.
  - simpl. split_and!.
    + by rewrite app_nil_r.
    + done.
    + intros ?? Hin. by apply elem_of_nil in Hin.
  - simpl in Hnodup. apply NoDup_cons in Hnodup as [Hnotin Hnodup].
    assert (mapGet column0 valueMap = None) as Hfresh0
      by (apply Hfresh; simpl; apply elem_of_cons; by left).
    cbn [fold_left].
    set (state := Postgres.insertValueStep g io am (valueMap, bind) (column0, rowValue0)).
    assert (forall column, column ∈ map fst rest -> mapGet column state.1 = None)
      as Hfresh'.
    { intros column Hin.
      assert (column0 <> column) as Hne by (intros ->; done).
      assert (mapGet column valueMap = None) as Hnone
        by (apply Hfresh; simpl; apply elem_of_cons; by right).
      unfold state, Postgres.insertValueStep.
      repeat case_match; simpl; rewrite ?mapGet_mapSet_ne by done; done. }
    destruct state as [valueMap' bind'] eqn:Hstate.
    destruct (IH valueMap' bind' Hnodup Hfresh') as (Hcolumns & Hkept & Hset).
    assert (mapGet column0
              (fold_left (Postgres.insertValueStep g io am) rest (valueMap', bind')).1
            = mapGet column0 valueMap') as Hcolumn0 by (by apply Hkept).
    unfold state, Postgres.insertValueStep in Hstate.
    split_and!.
    + rewrite Hcolumns. simpl. unfold Postgres.rendersColumn at 2. simpl.
      repeat case_match; simplify_eq; simpl in *;
        rewrite ?mapSet_fresh by done; rewrite ?map_app; simpl;
        try rewrite <- app_assoc; try done; try discriminate.
    + intros column Hcolumn. simpl in Hcolumn.
      apply not_elem_of_cons in Hcolumn as [Hne Hcolumn].
      rewrite Hkept by done.
      repeat case_match; simplify_eq; simpl;
        rewrite ?mapGet_mapSet_ne by done; done.
    + intros column rowValue [Heq|Hin]%elem_of_cons.
      * simplify_eq. rewrite Hcolumn0.
        repeat case_match; simplify_eq; simpl in *;
          rewrite ?mapGet_mapSet_eq; try done; try discriminate.
        eexists. by match goal with H : escape _ _ _ _ = _ |- _ => rewrite H end.
      * by apply Hset.
Qed.

(** C5, as the code has it. For every [insertQuery] call that returns a
    query, over the entries of the value hash (distinct keys, as in an
    object) and with an escaper that never writes DEFAULT for null: the
    column list and the value list of the query are those of the value map,
    in which
    - an undefined value is left out of both lists unless its column is
      auto-increment, where it is rendered as the DEFAULT keyword;
    - a null value is rendered as the DEFAULT keyword if and only if its
      column is auto-increment;
    - a null value of any other column is rendered by the escaper like any
      other value, as the NULL literal where the escaper writes null so. *)
Theorem insertQuery_value_map (g : Generator) (tableName : TableNameOrModel)
    (value : Value) (options : option (gmap string Value))
    (attributeHash : option (list (string * option Attribute)))
    (entropy : Entropy) (entries : list (string * Value)) (io : InsertOptions)
    (am : list (string * option Attribute)) (q : QueryWithBindParams) :
  let valueHash := removeNullishValuesFromHash g entries (default false (omitNull g)) in
  let valueMap := (Postgres.insertValueMap g io am valueHash).1 in
  Postgres.insertPrelude g tableName value options attributeHash = Ok (entries, io, am) ->
  (Postgres.insertQuery g tableName value options attributeHash entropy).1 = Ok q ->
  NoDup (map fst valueHash) ->
  (forall escapeOptions bind, (escape g VNull escapeOptions bind).1 <> "DEFAULT") ->
  (valueMap = [] ->
   query q = joinSQLFragments [
     "INSERT INTO"; quoteTable g tableName; "DEFAULT VALUES";
     Postgres.returningFragment g io (getReturnFields g io am) ])
  /\ (valueMap <> [] ->
      exists before after,
        query q = joinSQLFragments
          (before ++ [ quoteTable g tableName;
                       "(" +:+ Postgres.columnFragment g valueMap +:+ ")";
                       "VALUES";
                       "(" +:+ Postgres.rowFragment valueMap +:+ ")" ] ++ after)%list
        /\ (truthy (getOpt options "exception") = false ->
            before = ["INSERT INTO"]
            /\ after = [
                 if truthy (getOpt options "updateOnDuplicate")
                 then generateUpdateOnDuplicateKeysFragment g io else EmptyString;
                 if truthy (getOpt options "ignoreDuplicates")
                 then "ON CONFLICT DO NOTHING" else EmptyString;
                 Postgres.returningFragment g io (getReturnFields g io am) ]))
  /\ map fst valueMap = map fst (List.filter (Postgres.rendersColumn am) valueHash)
  /\ forall column rowValue, (column, rowValue) ∈ valueHash ->
       (rowValue = VUndefined ->
          (column ∈ map fst valueMap <-> Postgres.attributeAutoIncrement am column = true)
          /\ (Postgres.attributeAutoIncrement am column = true ->
              mapGet column valueMap = Some "DEFAULT"))
       /\ (rowValue = VNull ->
             (mapGet column valueMap = Some "DEFAULT"
              <-> Postgres.attributeAutoIncrement am column = true)
             /\ (Postgres.attributeAutoIncrement am column = false ->
                 (exists bind,
                    mapGet column valueMap
                    = Some (escape g VNull
                              (Some {| insertOptions := io;
                                       attributeType := Postgres.attributeTypeOf am column |})
                              bind).1)
                 /\ ((forall type bind,
                        (escape g VNull
                           (Some {| insertOptions := io; attributeType := type |}) bind).1
                        = "NULL") ->
                     mapGet column valueMap = Some "NULL"))).
Proof.
  intros valueHash valueMap Hprelude Hq Hnodup Hescape.
  destruct (insertValueStep_fold g io am valueHash [] [] Hnodup)
    as (Hcolumns & _ & Hset); [done|].
  change (fold_left (Postgres.insertValueStep g io am) valueHash ([], [])).1
    with valueMap in Hcolumns, Hset.
  assert (forall key, get (spread io) key = getOpt options key) as Hspread.
  { intros key.
    pose proof (insertPrelude_Ok _ _ _ _ _ _ _ _ Hprelude) as (_ & _ & -> & _).
    apply makeInsertOptions_spread. }
  split_and!.
  - intros Hempty. unfold Postgres.insertQuery in Hq. rewrite Hprelude in Hq.
    fold valueHash in Hq. subst valueMap.
    destruct (Postgres.insertValueMap g io am valueHash) as [valueMap bind].
    simpl in Hempty. subst valueMap. simpl in Hq. by injection Hq as <-.
  - intros Hcolumn. unfold Postgres.insertQuery in Hq. rewrite Hprelude in Hq.
    fold valueHash in Hq. subst valueMap.
    destruct (Postgres.insertValueMap g io am valueHash) as [valueMap bind].
    cbn [fst] in *. destruct valueMap as [|first valueMap]; [done|].
    cbn [length Nat.eqb] in Hq. rewrite !Hspread in Hq.
    destruct (truthy (getOpt options "exception")).
    + destruct (randomBytes 8 entropy) as [bytes entropy'].
      simpl in Hq. injection Hq as <-.
      eexists [_; _; _], _. split; [reflexivity|done].
    + simpl in Hq. injection Hq as <-.
      eexists [_], _. split; [reflexivity|]. by intros _.
  - exact Hcolumns.
  - intros column rowValue Hin. specialize (Hset column rowValue Hin).
    split.
    + intros ->. simpl in Hset. rewrite andb_true_r in Hset.
      destruct (Postgres.attributeAutoIncrement am column) eqn:Hauto.
      * split; [|done]. split; [done|]. intros _.
        apply dec_stable. intros Hnot. apply mapGet_None in Hnot.
        by rewrite Hnot in Hset.
      * split; [|done]. split; [|done]. intros Hcolumn.
        by apply mapGet_None in Hset.
    + intros ->. simpl in Hset. rewrite andb_true_r in Hset.
      destruct (Postgres.attributeAutoIncrement am column) eqn:Hauto.
      * split; [by split|done].
      * destruct Hset as [bind Hbind]. split.
        -- split; [|done]. rewrite Hbind. intros [= Hdefault].
           by apply Hescape in Hdefault.
        -- intros _. split; [by exists bind|]. intros Hnull. by rewrite Hbind, Hnull.
Qed.

(** The escaper of the sample generators never writes DEFAULT for null. *)
Lemma Sample_escape_null escapeOptions bind :
  (Sample.escape VNull escapeOptions bind).1 <> "DEFAULT".
Proof.
  unfold Sample.escape. destruct escapeOptions as [o|]; [|done].
  by destruct (bindParam (insertOptions o)).
Qed.

(** [{id: undefined, name: undefined, age: null}] with [id] auto-increment,
    in the exception mode, where values are inlined: [name] is left out,
    [id] is DEFAULT, [age] is NULL. *)
Lemma insertQuery_value_map_witness :
  exists q,
    (Postgres.insertQuery Sample.postgres (TString "t")
       (VObject [("id", VUndefined); ("name", VUndefined); ("age", VNull)])
       (Some {[ "exception" := VBool true ]})
       (Some [("id", Some {| columnName := None; autoIncrement := true; type := None |})])
       Sample.counting).1 = Ok q
    /\ exists before after,
         query q = joinSQLFragments
           (before ++ [ dq +:+ "t" +:+ dq;
                        "(" +:+ dq +:+ "id" +:+ dq +:+ "," +:+ dq +:+ "age" +:+ dq +:+ ")";
                        "VALUES";
                        "(DEFAULT,NULL)" ] ++ after)%list.
Proof.
  pose (io := Postgres.makeInsertOptions Sample.postgres (TString "t")
                (Some {[ "exception" := VBool true ]})).
  pose (am := [("id", Some {| columnName := None; autoIncrement := true; type := None |})]).
  destruct (Postgres.insertQuery Sample.postgres (TString "t")
              (VObject [("id", VUndefined); ("name", VUndefined); ("age", VNull)])
              (Some {[ "exception" := VBool true ]}) (Some am) Sample.counting).1
    as [q|e] eqn:Hq; [|by vm_compute in Hq].
  destruct (insertQuery_value_map Sample.postgres (TString "t")
              (VObject [("id", VUndefined); ("name", VUndefined); ("age", VNull)])
              (Some {[ "exception" := VBool true ]}) (Some am) Sample.counting
              [("id", VUndefined); ("name", VUndefined); ("age", VNull)] io am q)
    as (_ & Hform & _ & _).
  - by vm_compute.
  - exact Hq.
  - by_evaluation.
  - apply Sample_escape_null.
  - exists q. split; [exact Hq|].
    destruct Hform as (before & after & Hquery & _); [by vm_compute|].
    exists before, after. rewrite Hquery. by vm_compute.
Defined.

(** C5 as stated fails, twice. The undefined value of an auto-increment
    column is not left out: it is in the column list, rendered as DEFAULT.
    And the null value of a column that is not auto-increment is no NULL
    literal when bind parameters are in use, as they are unless the caller
    turns them off: it is bound like any other value, and the value list has
    its marker. *)
Lemma insertQuery_undefined_autoIncrement_rendered :
  (Postgres.insertQuery Sample.postgres (TString "t")
     (VObject [("id", VUndefined)]) None
     (Some [("id", Some {| columnName := None; autoIncrement := true; type := None |})])
     Sample.counting).1
  = Ok {| query := "INSERT INTO " +:+ dq +:+ "t" +:+ dq +:+ " (" +:+ dq +:+ "id" +:+ dq
                   +:+ ") VALUES (DEFAULT)";
          bindParams := Some [] |}
  /\ (Postgres.insertQuery Sample.postgres (TString "t")
        (VObject [("age", VNull)]) None None Sample.counting).1
     = Ok {| query := "INSERT INTO " +:+ dq +:+ "t" +:+ dq +:+ " (" +:+ dq +:+ "age" +:+ dq
                      +:+ ") VALUES ($sequelize_1)";
             bindParams := Some [("sequelize_1", VNull)] |}.
Proof. split; by vm_compute. Qed.

(** ** createTableQuery: unique keys against the primary key *)

Lemma everyEqual_eq (a b : list string) :
  length a = length b -> everyEqual a b = true <-> a = b.
Proof.
  revert b. induction a as [|x a IH]; intros [|y b] Hlen; simpl in *; try done.
  rewrite andb_true_iff, String.eqb_eq, IH by lia.
  split; [by intros [-> ->]|]. by intros [= -> ->].
Qed.

Lemma sort_Permutation (items : list string) : sort items ≡ₚ items.
Proof. apply merge_sort_Permutation. Qed.

(** Sorting forgets the order and nothing else. *)
Lemma sort_eq_iff (a b : list string) : sort a = sort b <-> a ≡ₚ b.
Proof.
  split.
  - intros Heq. by rewrite <- (sort_Permutation a), Heq, sort_Permutation.
  - intros Hperm. unfold sort.
    apply (Sorted_unique String.le); [apply Sorted_merge_sort; apply _..|].
    by rewrite !merge_sort_Permutation.
Qed.

Lemma uniqueIsPrimary_iff (primaryKeys fields : list string) :
  IBMi.uniqueIsPrimary primaryKeys fields = true <-> fields ≡ₚ primaryKeys.
Proof.
  unfold IBMi.uniqueIsPrimary. rewrite andb_true_iff, Nat.eqb_eq.
  split.
  - intros [Hlen Hevery]. apply sort_eq_iff.
    apply everyEqual_eq; [|done].
    by rewrite Hlen, (Permutation_length (sort_Permutation primaryKeys)).
  - intros Hperm.
    assert (sort fields = sort primaryKeys) as Hsort by (by apply sort_eq_iff).
    split.
    + by rewrite (Permutation_length (sort_Permutation fields)),
        (Permutation_length Hperm).
    + apply everyEqual_eq; [|done]. by rewrite Hsort.
Qed.

(** What a unique key contributes to the column clause: nothing when its
    columns are the primary key's up to order, its UNIQUE constraint
    otherwise. *)
Lemma uniqueKeyClause_cases (g : Generator) (tableName : TableNameOrModel)
    (primaryKeys : list string) (indexName : option string) (fields : list string) :
  (fields ≡ₚ primaryKeys
   /\ IBMi.uniqueKeyClause g tableName primaryKeys indexName fields = EmptyString)
  \/ (~ fields ≡ₚ primaryKeys
      /\ IBMi.uniqueKeyClause g tableName primaryKeys indexName fields
         = ", CONSTRAINT " +:+
           quoteIdentifier g
             (VString (default ("uniq_" +:+ IBMi.templateOf tableName +:+ "_" +:+
                                join "_" fields) indexName)) +:+
           " UNIQUE (" +:+
           join ", " (map (fun field => quoteIdentifier g (VString field)) fields) +:+ ")").
Proof.
  unfold IBMi.uniqueKeyClause.
  destruct (IBMi.uniqueIsPrimary primaryKeys fields) eqn:Hunique.
  - left. by apply uniqueIsPrimary_iff in Hunique.
  - right. split; [|by destruct indexName].
    intros Hperm. apply uniqueIsPrimary_iff in Hperm. congruence.
Qed.

(** A value read as unique keys is an array or an object, so it is truthy
    and [each] visits its entries. *)
Lemma asUniqueKeys_Some (v : Value) (uniqueKeys : IBMi.UniqueKeys) :
  IBMi.asUniqueKeys v = Some uniqueKeys ->
  truthy v = true /\ ((exists items, v = VArray items) \/ exists entries, v = VObject entries).
Proof. destruct v; simpl; try done; intros _; split; eauto. Qed.

(** C6, as the code has it. For every [createTableQuery] call whose options
    pass the validator and carry unique keys (an array of [{fields}], or an
    object from index names to [{fields}]), the statement is returned and
    its column clause is the column definitions, then one clause for each
    unique key in order, then the primary key. The clause of a unique key is
    empty exactly when its columns are the primary key's columns up to
    order, the names being compared as they are written (strict equality,
    so letter case counts); every other unique key gives a UNIQUE constraint
    under the name the caller gave or, for an array entry, under
    [uniq_<table>_<fields joined by _>]. *)
Theorem createTableQuery_unique_keys (g : Generator) (tableName : TableNameOrModel)
    (attributes : list (string * string)) (o : gmap string Value)
    (uniqueKeys : IBMi.UniqueKeys) :
  let primaryKeys := (IBMi.columns g attributes).1 in
  let attrStr := (IBMi.columns g attributes).2 in
  let pkString :=
    join ", " (map (fun pk => quoteIdentifier g (VString pk)) primaryKeys) in
  let keys : list (option string * list string) :=
    match uniqueKeys with
    | IBMi.UniqueKeyArray keys => map (pair None) keys
    | IBMi.UniqueKeyObject keys =>
        map (fun key : string * list string => (Some key.1, key.2)) keys
    end in
  dom o ⊆ IBMi.CREATE_TABLE_QUERY_SUPPORTED_OPTIONS ->
  IBMi.asUniqueKeys (get o "uniqueKeys") = Some uniqueKeys ->
  exists clauses,
    IBMi.createTableQuery g tableName attributes (Some o)
    = Ok ("BEGIN" +:+ IBMi.nl +:+
          "    DECLARE CONTINUE HANDLER FOR SQLSTATE VALUE '42710'" +:+ IBMi.nl +:+
          "      BEGIN END;" +:+ IBMi.nl +:+
          "      CREATE TABLE " +:+ quoteTable g tableName +:+ " (" +:+
          (if (0 <? String.length pkString)%nat
           then (join ", " attrStr +:+ join EmptyString clauses)
                +:+ ", PRIMARY KEY (" +:+ pkString +:+ ")"
           else join ", " attrStr +:+ join EmptyString clauses) +:+ ");" +:+ IBMi.nl +:+
          "      END")
    /\ Forall2
         (fun (key : option string * list string) (clause : string) =>
            (key.2 ≡ₚ primaryKeys /\ clause = EmptyString)
            \/ (~ key.2 ≡ₚ primaryKeys
                /\ clause
                   = ", CONSTRAINT " +:+
                     quoteIdentifier g
                       (VString (default ("uniq_" +:+ IBMi.templateOf tableName +:+ "_" +:+
                                          join "_" key.2) key.1)) +:+
                     " UNIQUE (" +:+
                     join ", " (map (fun field => quoteIdentifier g (VString field)) key.2)
                     +:+ ")"))
         keys clauses.
Proof.
  intros primaryKeys attrStr pkString keys Hsupported Hkeys.
  exists (IBMi.uniqueKeyClauses g tableName primaryKeys uniqueKeys). split.
  - unfold IBMi.createTableQuery.
    rewrite rejectInvalidOptions_supported by done. simpl.
    subst pkString attrStr primaryKeys.
    destruct (IBMi.columns g attributes) as [primaryKeys attrStr]. simpl.
    destruct (asUniqueKeys_Some _ _ Hkeys) as [-> [[items Hv]|[entries Hv]]];
      rewrite Hv in *; rewrite Hkeys; simpl; by case_match.
  - unfold keys, IBMi.uniqueKeyClauses. clear keys Hkeys.
    destruct uniqueKeys as [array|object].
    + induction array as [|fields array IH]; simpl; [constructor|].
      constructor; [apply uniqueKeyClause_cases|exact IH].
    + induction object as [|[name fields] object IH]; simpl; [constructor|].
      constructor; [apply uniqueKeyClause_cases|exact IH].
Qed.

(** Primary key [(a, b)]: of the unique keys [(b, a)] and [(a, c)], given
    as an array, the first is skipped and the second is emitted as
    [uniq_t_a_c]. *)
Lemma createTableQuery_unique_keys_witness :
  IBMi.createTableQuery Sample.ibmi (TString "t")
    [("a", "INTEGER PRIMARY KEY"); ("b", "INTEGER PRIMARY KEY"); ("c", "INTEGER")]
    (Some {[ "uniqueKeys" :=
               VArray [VObject [("fields", VArray [VString "b"; VString "a"])];
                       VObject [("fields", VArray [VString "a"; VString "c"])]] ]})
  = Ok ("BEGIN" +:+ IBMi.nl +:+
        "    DECLARE CONTINUE HANDLER FOR SQLSTATE VALUE '42710'" +:+ IBMi.nl +:+
        "      BEGIN END;" +:+ IBMi.nl +:+
        "      CREATE TABLE " +:+ dq +:+ "t" +:+ dq +:+ " (" +:+
        dq +:+ "a" +:+ dq +:+ " INTEGER , " +:+ dq +:+ "b" +:+ dq +:+ " INTEGER , " +:+
        dq +:+ "c" +:+ dq +:+ " INTEGER, CONSTRAINT " +:+ dq +:+ "uniq_t_a_c" +:+ dq +:+
        " UNIQUE (" +:+ dq +:+ "a" +:+ dq +:+ ", " +:+ dq +:+ "c" +:+ dq +:+
        "), PRIMARY KEY (" +:+ dq +:+ "a" +:+ dq +:+ ", " +:+ dq +:+ "b" +:+ dq +:+ "));"
        +:+ IBMi.nl +:+ "      END").
Proof.
  destruct (createTableQuery_unique_keys Sample.ibmi (TString "t")
              [("a", "INTEGER PRIMARY KEY"); ("b", "INTEGER PRIMARY KEY"); ("c", "INTEGER")]
              {[ "uniqueKeys" :=
                   VArray [VObject [("fields", VArray [VString "b"; VString "a"])];
                           VObject [("fields", VArray [VString "a"; VString "c"])]] ]}
              (IBMi.UniqueKeyArray [["b"; "a"]; ["a"; "c"]]))
    as (clauses & Hquery & Hclauses).
  - by_evaluation.
  - by vm_compute.
  - rewrite Hquery. clear Hquery.
    change (IBMi.columns Sample.ibmi _).1 with ["a"; "b"] in Hclauses.
    simpl in Hclauses.
    apply Forall2_cons_inv_l in Hclauses as (skipped & rest & Hskipped & Hrest & ->).
    apply Forall2_cons_inv_l in Hrest as (emitted & rest' & Hemitted & Hnil & ->).
    apply Forall2_nil_inv_l in Hnil as ->.
    destruct Hskipped as [[_ ->]|[Hdiffer _]];
      [|exfalso; apply Hdiffer; apply perm_swap].
    destruct Hemitted as [[Hperm _]|[_ ->]]; [|by vm_compute].
    exfalso. assert ("c" ∈ ["a"; "b"]) as Hin.
    { rewrite <- Hperm. apply elem_of_cons. right. apply elem_of_cons. by left. }
    repeat (apply elem_of_cons in Hin as [Hin|Hin]; [discriminate|]).
    by apply elem_of_nil in Hin.
Defined.

(** C6 as stated fails: the comparison is not case-insensitive. With the
    primary key [id], the unique key on [ID] is not skipped. *)
Lemma createTableQuery_unique_key_case_sensitive :
  IBMi.createTableQuery Sample.ibmi (TString "t") [("id", "INTEGER PRIMARY KEY")]
    (Some {[ "uniqueKeys" := VArray [VObject [("fields", VArray [VString "ID"])]] ]})
  = Ok ("BEGIN" +:+ IBMi.nl +:+
        "    DECLARE CONTINUE HANDLER FOR SQLSTATE VALUE '42710'" +:+ IBMi.nl +:+
        "      BEGIN END;" +:+ IBMi.nl +:+
        "      CREATE TABLE " +:+ dq +:+ "t" +:+ dq +:+ " (" +:+ dq +:+ "id" +:+ dq +:+
        " INTEGER , CONSTRAINT " +:+ dq +:+ "uniq_t_ID" +:+ dq +:+ " UNIQUE (" +:+
        dq +:+ "ID" +:+ dq +:+ "), PRIMARY KEY (" +:+ dq +:+ "id" +:+ dq +:+ "));" +:+
        IBMi.nl +:+ "      END").
Proof. by vm_compute. Qed.

(** ** Random bytes *)

Lemma unhexByte_hexByte (b : byte) : unhexByte (hexByte b) = Some b.
Proof. by destruct b. Qed.

Lemma hexByte_inj (b1 b2 : byte) : hexByte b1 = hexByte b2 -> b1 = b2.
Proof.
  intros Heq. apply (f_equal unhexByte) in Heq.
  rewrite !unhexByte_hexByte in Heq. by simplify_eq.
Qed.

(** The hex text of a buffer determines the buffer. *)
Lemma toHex_inj (bytes1 bytes2 : list byte) :
  toHex bytes1 = toHex bytes2 -> bytes1 = bytes2.
Proof.
  revert bytes2. induction bytes1 as [|b1 bytes1 IH]; intros [|b2 bytes2]; simpl;
    try done.
  unfold hexByte. simpl. intros [= Hhi Hlo Hrest].
  f_equal; [|by apply IH]. apply hexByte_inj. unfold hexByte. by rewrite Hhi, Hlo.
Qed.

(** C8, as the code has it. The generated text is a function of the input
    and of the bytes drawn from the random source:
    - [generateTransactionId] of Db2 is the hex text of the next ten bytes,
      so two calls agree exactly when the ten bytes they draw agree;
    - two calls of [insertQuery] on the same input agree when the eight
      bytes they would draw agree;
    - outside the exception mode [insertQuery] draws nothing: its result
      does not depend on the random source, which it leaves as it was. *)
Theorem generation_depends_on_input_and_drawn_bytes (g : Generator)
    (tableName : TableNameOrModel) (value : Value)
    (options : option (gmap string Value))
    (attributeHash : option (list (string * option Attribute)))
    (entropy1 entropy2 : Entropy) :
  ((Db2.generateTransactionId entropy1).1 = (Db2.generateTransactionId entropy2).1
   <-> (randomBytes 10 entropy1).1 = (randomBytes 10 entropy2).1)
  /\ ((randomBytes 8 entropy1).1 = (randomBytes 8 entropy2).1 ->
      (Postgres.insertQuery g tableName value options attributeHash entropy1).1
      = (Postgres.insertQuery g tableName value options attributeHash entropy2).1)
  /\ (truthy (getOpt options "exception") = false ->
      (Postgres.insertQuery g tableName value options attributeHash entropy1).1
      = (Postgres.insertQuery g tableName value options attributeHash entropy2).1
      /\ (Postgres.insertQuery g tableName value options attributeHash entropy1).2
         = entropy1).
Proof.
  split_and!.
  - unfold Db2.generateTransactionId.
    destruct (randomBytes 10 entropy1) as [bytes1 rest1].
    destruct (randomBytes 10 entropy2) as [bytes2 rest2]. simpl. split.
    + apply toHex_inj.
    + by intros ->.
  - unfold Postgres.insertQuery.
    destruct (randomBytes 8 entropy1) as [bytes1 rest1].
    destruct (randomBytes 8 entropy2) as [bytes2 rest2]. simpl. intros ->.
    repeat case_match; simplify_eq; simpl; done.
  - intros Hmode. unfold Postgres.insertQuery.
    destruct (Postgres.insertPrelude g tableName value options attributeHash)
      as [[[entries io] am]|e] eqn:Hprelude; [|done].
    apply insertPrelude_Ok in Hprelude as (_ & _ & -> & _).
    rewrite makeInsertOptions_spread, Hmode.
    repeat case_match; simplify_eq; simpl; done.
Qed.

(** Two inserts outside the exception mode, whatever the random source. *)
Lemma generation_depends_on_input_and_drawn_bytes_witness :
  (Postgres.insertQuery Sample.postgres (TString "t") (VObject [("a", VNumber 1)])
     (Some {[ "returning" := VBool true ]}) None Sample.counting).1
  = (Postgres.insertQuery Sample.postgres (TString "t") (VObject [("a", VNumber 1)])
       (Some {[ "returning" := VBool true ]}) None (fun _ => x2a)).1.
Proof.
  destruct (generation_depends_on_input_and_drawn_bytes Sample.postgres (TString "t")
              (VObject [("a", VNumber 1)]) (Some {[ "returning" := VBool true ]}) None
              Sample.counting (fun _ => x2a)) as (_ & _ & Hpure).
  apply Hpure. by vm_compute.
Defined.

(** C8 as stated fails: two invocations on the same generator and the same
    input return different text where random bytes are drawn. The second
    call draws from where the first one left the random source. *)
Lemma two_invocations_differ :
  (let first := Db2.generateTransactionId Sample.counting in
   let second := Db2.generateTransactionId first.2 in
   first.1 = "00010203040506070809" /\ second.1 = "0a0b0c0d0e0f10111213")
  /\ (let first :=
        Postgres.insertQuery Sample.postgres (TString "t") (VObject [("a", VNumber 1)])
          (Some {[ "exception" := VBool true ]}) None Sample.counting in
      let second :=
        Postgres.insertQuery Sample.postgres (TString "t") (VObject [("a", VNumber 1)])
          (Some {[ "exception" := VBool true ]}) None first.2 in
      first.1 <> second.1).
Proof.
  split; [split; by vm_compute|].
  intros first second Heq. vm_compute in Heq. discriminate.
Qed.

(** ** List queries: what is excluded *)

(** C9, as the code has it. [listDatabasesQuery] and [listSchemasQuery]
    exclude the technical names of the dialect followed by the skip list of
    the caller (Postgres puts [public] before the technical schemas), for
    every options object. [listTablesQuery] takes no skip list,
    [options.skip] changes nothing of it: without a schema filter it
    excludes the technical schemas, and with [options.schema] set its
    predicate is the equality with that schema, with no exclusion. *)
Theorem list_queries_exclusions (g : Generator) (options : option (gmap string Value)) :
  let technicalDatabases := map VString (getTechnicalDatabaseNames g) in
  let technicalSchemas := map VString (getTechnicalSchemaNames g) in
  let excluded (names : list Value) := join ", " (map (escapeValue g) names) in
  Postgres.listDatabasesQuery g options
  = joinSQLFragments [
      "SELECT datname AS " +:+ dq +:+ "name" +:+ dq +:+ " FROM pg_database";
      "WHERE datistemplate = false AND datname NOT IN (" +:+
        excluded (technicalDatabases ++ callerSkip options)%list +:+ ")" ]
  /\ Postgres.listSchemasQuery g options
     = joinSQLFragments [
         "SELECT schema_name AS " +:+ dq +:+ "schema" +:+ dq +:+
           " FROM information_schema.schemata";
         "WHERE schema_name !~ E'^pg_' AND schema_name NOT IN (" +:+
           excluded (VString "public" :: technicalSchemas ++ callerSkip options)%list +:+ ")" ]
  /\ Db2.listSchemasQuery g options
     = joinSQLFragments [
         "SELECT SCHEMANAME AS " +:+ dq +:+ "schema" +:+ dq +:+ " FROM SYSCAT.SCHEMATA";
         "WHERE SCHEMANAME NOT LIKE 'SYS%' AND SCHEMANAME NOT IN (" +:+
           excluded (technicalSchemas ++ callerSkip options)%list +:+ ")" ]
  /\ (truthy (getOpt options "schema") = false ->
      Postgres.listTablesQuery g options
      = joinSQLFragments [
          "SELECT table_name AS " +:+ dq +:+ "tableName" +:+ dq +:+ ", table_schema AS "
            +:+ dq +:+ "schema" +:+ dq;
          "FROM information_schema.tables WHERE table_type = 'BASE TABLE' AND table_name != 'spatial_ref_sys'";
          "AND table_schema !~ E'^pg_' AND table_schema NOT IN (" +:+
            excluded technicalSchemas +:+ ")";
          "ORDER BY table_schema, table_name" ]
      /\ Db2.listTablesQuery g options
         = joinSQLFragments [
             "SELECT TABNAME AS " +:+ dq +:+ "tableName" +:+ dq +:+ ",";
             "TRIM(TABSCHEMA) AS " +:+ dq +:+ "schema" +:+ dq;
             "FROM SYSCAT.TABLES WHERE TYPE = 'T'";
             "AND TABSCHEMA NOT LIKE 'SYS%' AND TABSCHEMA NOT IN (" +:+
               excluded technicalSchemas +:+ ")";
             "ORDER BY TABSCHEMA, TABNAME" ])
  /\ (truthy (getOpt options "schema") = true ->
      Postgres.listTablesQuery g options
      = joinSQLFragments [
          "SELECT table_name AS " +:+ dq +:+ "tableName" +:+ dq +:+ ", table_schema AS "
            +:+ dq +:+ "schema" +:+ dq;
          "FROM information_schema.tables WHERE table_type = 'BASE TABLE' AND table_name != 'spatial_ref_sys'";
          "AND table_schema = " +:+ escapeValue g (getOpt options "schema");
          "ORDER BY table_schema, table_name" ]
      /\ Db2.listTablesQuery g options
         = joinSQLFragments [
             "SELECT TABNAME AS " +:+ dq +:+ "tableName" +:+ dq +:+ ",";
             "TRIM(TABSCHEMA) AS " +:+ dq +:+ "schema" +:+ dq;
             "FROM SYSCAT.TABLES WHERE TYPE = 'T'";
             "AND TABSCHEMA = " +:+ escapeValue g (getOpt options "schema");
             "ORDER BY TABSCHEMA, TABNAME" ])
  /\ (forall (o : gmap string Value) (skip : Value),
        Postgres.listTablesQuery g (Some (<[ "skip" := skip ]> o))
        = Postgres.listTablesQuery g (Some o)
        /\ Db2.listTablesQuery g (Some (<[ "skip" := skip ]> o))
           = Db2.listTablesQuery g (Some o)).
Proof.
  intros technicalDatabases technicalSchemas excluded.
  assert (forall names,
            match getOpt options "skip" with
            | VArray skip => (names ++ skip)%list
            | _ => names
            end = (names ++ callerSkip options)%list) as Hskip.
  { intros names. unfold callerSkip.
    destruct (getOpt options "skip"); by rewrite ?app_nil_r. }
  split_and!.
  - unfold Postgres.listDatabasesQuery, Postgres.databasesToSkip. by rewrite Hskip.
  - unfold Postgres.listSchemasQuery, Postgres.schemasToSkip. by rewrite Hskip.
  - unfold Db2.listSchemasQuery, Db2.schemasToSkip. by rewrite Hskip.
  - intros Hschema.
    unfold Postgres.listTablesQuery, Postgres.listTablesSchemaFragment,
      Db2.listTablesQuery, Db2.listTablesSchemaFragment, excluded, technicalSchemas.
    by rewrite Hschema, map_map.
  - intros Hschema.
    unfold Postgres.listTablesQuery, Postgres.listTablesSchemaFragment,
      Db2.listTablesQuery, Db2.listTablesSchemaFragment.
    by rewrite Hschema.
  - intros o skip.
    unfold Postgres.listTablesQuery, Postgres.listTablesSchemaFragment,
      Db2.listTablesQuery, Db2.listTablesSchemaFragment.
    by rewrite getOpt_insert_ne.
Qed.

(** On Postgres: the schemas listed skip [public], the technical schemas
    and the caller's [app]; the tables listed with the same options skip the
    technical schemas only, and with a schema filter nothing. *)
Lemma list_queries_exclusions_witness :
  Postgres.listSchemasQuery Sample.postgres (Some {[ "skip" := VArray [VString "app"] ]})
  = "SELECT schema_name AS " +:+ dq +:+ "schema" +:+ dq +:+
    " FROM information_schema.schemata WHERE schema_name !~ E'^pg_' AND schema_name NOT IN ('public', 'information_schema', 'tiger', 'tiger_data', 'topology', 'app')"
  /\ Postgres.listTablesQuery Sample.postgres (Some {[ "skip" := VArray [VString "app"] ]})
     = "SELECT table_name AS " +:+ dq +:+ "tableName" +:+ dq +:+ ", table_schema AS " +:+
       dq +:+ "schema" +:+ dq +:+
       " FROM information_schema.tables WHERE table_type = 'BASE TABLE' AND table_name != 'spatial_ref_sys' AND table_schema !~ E'^pg_' AND table_schema NOT IN ('information_schema', 'tiger', 'tiger_data', 'topology') ORDER BY table_schema, table_name"
  /\ Db2.listTablesQuery Sample.db2 (Some {[ "schema" := VString "app" ]})
     = "SELECT TABNAME AS " +:+ dq +:+ "tableName" +:+ dq +:+ ", TRIM(TABSCHEMA) AS " +:+
       dq +:+ "schema" +:+ dq +:+
       " FROM SYSCAT.TABLES WHERE TYPE = 'T' AND TABSCHEMA = 'app' ORDER BY TABSCHEMA, TABNAME".
Proof.
  destruct (list_queries_exclusions Sample.postgres
              (Some {[ "skip" := VArray [VString "app"] ]}))
    as (_ & Hschemas & _ & Hunfiltered & _ & _).
  destruct (list_queries_exclusions Sample.db2 (Some {[ "schema" := VString "app" ]}))
    as (_ & _ & _ & _ & Hfiltered & _).
  split_and!.
  - rewrite Hschemas. by vm_compute.
  - destruct Hunfiltered as [-> _]; by vm_compute.
  - destruct Hfiltered as [_ ->]; by vm_compute.
Defined.

(** C9 as stated fails: with a schema filter, [listTablesQuery] has no
    exclusion of the technical schemas; none of their names is in the
    query. *)
Lemma listTablesQuery_schema_filter_excludes_nothing :
  Postgres.listTablesQuery Sample.postgres (Some {[ "schema" := VString "app" ]})
  = "SELECT table_name AS " +:+ dq +:+ "tableName" +:+ dq +:+ ", table_schema AS " +:+
    dq +:+ "schema" +:+ dq +:+
    " FROM information_schema.tables WHERE table_type = 'BASE TABLE' AND table_name != 'spatial_ref_sys' AND table_schema = 'app' ORDER BY table_schema, table_name"
  /\ getTechnicalSchemaNames Sample.postgres
     = ["information_schema"; "tiger"; "tiger_data"; "topology"]
  /\ includes "NOT IN"
       (Postgres.listTablesQuery Sample.postgres (Some {[ "schema" := VString "app" ]}))
     = false
  /\ forallb (fun name =>
       negb (includes ("'" +:+ name +:+ "'")
               (Postgres.listTablesQuery Sample.postgres
                  (Some {[ "schema" := VString "app" ]}))))
       (getTechnicalSchemaNames Sample.postgres)
     = true.
Proof. split_and!; by vm_compute. Qed.

(** ** insertQuery without a value *)

(** The value map stays empty exactly when no round of the loop sets a
    column, and then nothing was bound. *)
Lemma insertValueStep_fold_nil g io am (rest : list (string * Value)) :
  forall valueMap bind,
    (fold_left (Postgres.insertValueStep g io am) rest (valueMap, bind)).1 = [] ->
    valueMap = []
    /\ (fold_left (Postgres.insertValueStep g io am) rest (valueMap, bind)).2 = bind
    /\ Forall (fun entry => Postgres.rendersColumn am entry = false) rest.
Proof.
  induction rest as [|[column rowValue] rest IH]; intros valueMap bind; simpl.
  - intros ->. by split_and!.
  - unfold Postgres.rendersColumn at 1. simpl.
    destruct (Postgres.attributeAutoIncrement am column && nullish rowValue) eqn:Hdefault;
      simpl.
    + intros Hnil. apply IH in Hnil as [Hnil _]. by apply mapSet_not_nil in Hnil.
    + destruct (isUndefined rowValue) eqn:Hundefined; simpl.
      * intros Hnil. destruct (IH _ _ Hnil) as (-> & Hbind & Hrest).
        split_and!; [done..|]. constructor; [|done]. simpl.
        unfold Postgres.rendersColumn. simpl. by rewrite Hdefault, Hundefined.
      * destruct (escape g rowValue _ bind) as [sql bind'].
        intros Hnil. apply IH in Hnil as [Hnil _]. by apply mapSet_not_nil in Hnil.
Qed.

(** C10. When [insertQuery] on Postgres passes its checks and no column
    receives a value or DEFAULT, so that the value map is empty, the query
    is [INSERT INTO <quoted table> DEFAULT VALUES], with the RETURNING
    fragment appended when [options.returning] is set; nothing is bound and
    no random byte is drawn. *)
Theorem insertQuery_default_values (g : Generator) (tableName : TableNameOrModel)
    (value : Value) (options : option (gmap string Value))
    (attributeHash : option (list (string * option Attribute)))
    (entropy : Entropy) (entries : list (string * Value)) (io : InsertOptions)
    (am : list (string * option Attribute)) :
  Postgres.insertPrelude g tableName value options attributeHash = Ok (entries, io, am) ->
  (Postgres.insertValueMap g io am
     (removeNullishValuesFromHash g entries (default false (omitNull g)))).1 = [] ->
  Postgres.insertQuery g tableName value options attributeHash entropy
  = (Ok {| query :=
             joinSQLFragments [
               "INSERT INTO";
               quoteTable g tableName;
               "DEFAULT VALUES";
               if truthy (getOpt options "returning")
               then joinSQLFragments ["RETURNING"; join ", " (getReturnFields g io am)]
               else EmptyString ];
           bindParams :=
             if Postgres.bindParamIsFunction (bindParam io) then Some [] else None |},
     entropy).
Proof.
  intros Hprelude Hempty. unfold Postgres.insertQuery. rewrite Hprelude.
  apply insertPrelude_Ok in Hprelude as (_ & _ & Hio & _).
  unfold Postgres.insertValueMap in *.
  destruct (insertValueStep_fold_nil _ _ _ _ _ _ Hempty) as (_ & Hbind & _).
  destruct (fold_left _ _ _) as [valueMap bind]. simpl in *. subst valueMap bind.
  simpl. unfold Postgres.returningFragment.
  by rewrite Hio, makeInsertOptions_spread.
Qed.

(** [insertQuery('t', {a: undefined}, {returning: true})] *)
Lemma insertQuery_default_values_witness :
  Postgres.insertQuery Sample.postgres (TString "t") (VObject [("a", VUndefined)])
    (Some {[ "returning" := VBool true ]}) None Sample.counting
  = (Ok {| query := "INSERT INTO " +:+ dq +:+ "t" +:+ dq +:+ " DEFAULT VALUES RETURNING *";
           bindParams := Some [] |},
     Sample.counting).
Proof.
  rewrite (insertQuery_default_values Sample.postgres (TString "t")
             (VObject [("a", VUndefined)]) (Some {[ "returning" := VBool true ]}) None
             Sample.counting [("a", VUndefined)]
             (Postgres.makeInsertOptions Sample.postgres (TString "t")
                (Some {[ "returning" := VBool true ]}))
             []).
  - by f_equal.
  - by vm_compute.
  - by vm_compute.
Defined.

(** * Further properties of the generators *)

(** ** insertQuery: when the insert has no column *)

Lemma rendersColumn_false am (entry : string * Value) :
  Postgres.rendersColumn am entry = false
  <-> entry.2 = VUndefined /\ Postgres.attributeAutoIncrement am entry.1 = false.
Proof.
  unfold Postgres.rendersColumn. destruct entry as [column rowValue]. simpl.
  destruct (Postgres.attributeAutoIncrement am column), rowValue; simpl;
    split; (try done); by intros [? ?].
Qed.

Lemma insertValueStep_fold_skipped g io am (rest : list (string * Value)) state :
  Forall (fun entry => Postgres.rendersColumn am entry = false) rest ->
  fold_left (Postgres.insertValueStep g io am) rest state = state.
Proof.
  revert state. induction rest as [|[column rowValue] rest IH]; intros [valueMap bind];
    [done|].
  intros [Hentry Hrest]%Forall_cons. simpl.
  apply rendersColumn_false in Hentry as [Hvalue Hauto]. simpl in *. subst rowValue.
  rewrite Hauto. simpl. by apply IH.
Qed.

(** X1. The value map of [insertQuery] is empty, which is what selects the
    DEFAULT VALUES form, exactly when every entry of the value hash is
    undefined on a column that is not auto-increment. A null value, or any
    value of an auto-increment column, gives the insert a column. *)
Theorem insertValueMap_empty_iff (g : Generator) (io : InsertOptions)
    (am : list (string * option Attribute)) (valueHash : list (string * Value)) :
  (Postgres.insertValueMap g io am valueHash).1 = []
  <-> Forall (fun entry : string * Value =>
                entry.2 = VUndefined
                /\ Postgres.attributeAutoIncrement am entry.1 = false) valueHash.
Proof.
  unfold Postgres.insertValueMap. split.
  - intros Hempty. apply insertValueStep_fold_nil in Hempty as (_ & _ & Hskipped).
    eapply Forall_impl; [exact Hskipped|]. intros entry. apply rendersColumn_false.
  - intros Hall. rewrite insertValueStep_fold_skipped; [done|].
    eapply Forall_impl; [exact Hall|]. intros entry. apply rendersColumn_false.
Qed.

(** ** insertQuery: the attribute map *)

(** The key an attribute is stored under: [attribute?.columnName ?? column]. *)
Lemma attributeMapStep_fold_other key (attributes : list (string * option Attribute)) :
  forall attributeMap,
    Forall (fun entry : string * option Attribute =>
              default entry.1 (entry.2 ≫= columnName) <> key) attributes ->
    mapGet key (fold_left Postgres.attributeMapStep attributes attributeMap)
    = mapGet key attributeMap.
Proof.
  induction attributes as [|[column attribute] attributes IH]; intros attributeMap;
    [done|].
  intros [Hentry Hrest]%Forall_cons. simpl in *.
  rewrite IH by done. by apply mapGet_mapSet_ne.
Qed.

(** X2. [insertQuery] files each attribute under its column name when it
    has one and under its key otherwise, the last attribute of a name
    winning: without a model, the attribute found for a name is the last one
    of [attributeHash] that resolves to it, and a name no attribute resolves
    to has none (so an attribute with a column name is not found under its
    own key). With a model class, [attributeHash] is not read. *)
Theorem insertAttributeMap_lookup (before after : list (string * option Attribute))
    (column : string) (attribute : option Attribute) (m : ModelStatic)
    (attributeHash : option (list (string * option Attribute))) :
  let key := default column (attribute ≫= columnName) in
  let attributes := (before ++ (column, attribute) :: after)%list in
  Forall (fun entry : string * option Attribute =>
            default entry.1 (entry.2 ≫= columnName) <> key) after ->
  (exists attributeMap,
     Postgres.insertAttributeMap VUndefined (Some attributes) = Ok attributeMap
     /\ mapGet key attributeMap = Some attribute
     /\ Postgres.attributeAutoIncrement attributeMap key
        = from_option autoIncrement false attribute
     /\ forall other,
          Forall (fun entry : string * option Attribute =>
                    default entry.1 (entry.2 ≫= columnName) <> other) attributes ->
          mapGet other attributeMap = None)
  /\ Postgres.insertAttributeMap (VModel m) attributeHash
     = Postgres.insertAttributeMap VUndefined (Some (physicalAttributes m)).
Proof.
  intros key attributes Hafter. split; [|done].
  eexists. split; [reflexivity|].
  assert (mapGet key (fold_left Postgres.attributeMapStep attributes []) = Some attribute)
    as Hfound.
  { unfold attributes. rewrite fold_left_app. simpl.
    rewrite attributeMapStep_fold_other by done. apply mapGet_mapSet_eq. }
  split_and!.
  - exact Hfound.
  - unfold Postgres.attributeAutoIncrement. rewrite Hfound. by destruct attribute.
  - intros other Hother. by rewrite attributeMapStep_fold_other.
Qed.

(** The attribute [userId] of column [user_id] is found under [user_id]
    and not under [userId]. *)
Lemma insertAttributeMap_lookup_witness :
  exists attributeMap,
    Postgres.insertAttributeMap VUndefined
      (Some [("id", Some {| columnName := None; autoIncrement := true; type := None |});
             ("userId", Some {| columnName := Some "user_id"; autoIncrement := true;
                                type := None |});
             ("name", None)])
    = Ok attributeMap
    /\ Postgres.attributeAutoIncrement attributeMap "user_id" = true
    /\ mapGet "userId" attributeMap = None.
Proof.
  destruct (insertAttributeMap_lookup
              [("id", Some {| columnName := None; autoIncrement := true; type := None |})]
              [("name", None)] "userId"
              (Some {| columnName := Some "user_id"; autoIncrement := true; type := None |})
              {| physicalAttributes := []; modelTable := "t"; sourceText := "class" |}
              None)
    as [(attributeMap & Hmap & _ & Hauto & Hother) _].
  - by_evaluation.
  - exists attributeMap. split_and!; [exact Hmap|exact Hauto|].
    apply Hother. by_evaluation.
Defined.

(** ** insertQuery: when it throws *)

(** X3. [insertQuery] checks its options before its value. Options that
    the validator or the exclusivity check rejects give that exception
    whatever the value is; with options that pass, a value that is not a
    plain object (null, an array, a number, a string, a function) is
    rejected as invalid; so a call that returns a query had options that
    pass and a plain object for value. A call these checks reject has drawn
    no random bytes. *)
Theorem insertQuery_check_order (g : Generator) (tableName : TableNameOrModel)
    (value : Value) (options : option (gmap string Value))
    (attributeHash : option (list (string * option Attribute)))
    (entropy : Entropy) :
  let outcome := Postgres.insertQuery g tableName value options attributeHash entropy in
  (forall e, Postgres.insertCheckOptions g options = Throw e ->
     outcome = (Throw e, entropy))
  /\ (Postgres.insertCheckOptions g options = Ok tt ->
      (forall entries, value <> VObject entries) ->
      outcome
      = (Throw (JsError ("Invalid value: " +:+ inspect g value +:+ ". Expected an object.")),
         entropy))
  /\ (isOk outcome.1 = true ->
      Postgres.insertCheckOptions g options = Ok tt
      /\ exists entries, value = VObject entries).
Proof.
  intros outcome. subst outcome. split_and!.
  - intros e. apply insertQuery_check_options.
  - intros Hoptions Hvalue. unfold Postgres.insertQuery, Postgres.insertPrelude.
    rewrite Hoptions. simpl. destruct value; try done. exfalso. by eapply Hvalue.
  - intros Hok.
    destruct (Postgres.insertPrelude g tableName value options attributeHash)
      as [[[entries io] am]|e] eqn:Hprelude.
    + apply insertPrelude_Ok in Hprelude as (Hoptions & -> & _ & _).
      split; [done|by eexists].
    + unfold Postgres.insertQuery in Hok. by rewrite Hprelude in Hok.
Qed.

(** [insertQuery('t', null)]; [insertQuery('t', [1], {bogus: true})], where
    the options are rejected before the value is looked at. *)
Lemma insertQuery_check_order_witness :
  Postgres.insertQuery Sample.postgres (TString "t") VNull None None Sample.counting
  = (Throw (JsError "Invalid value: null. Expected an object."), Sample.counting)
  /\ Postgres.insertQuery Sample.postgres (TString "t") (VArray [VNumber 1])
       (Some {[ "bogus" := VBool true ]}) None Sample.counting
     = (Throw (ConfigurationError "insertQuery" "postgres" {[ "bogus" ]}), Sample.counting).
Proof.
  destruct (insertQuery_check_order Sample.postgres (TString "t") VNull None None
              Sample.counting) as (_ & Hinvalid & _).
  destruct (insertQuery_check_order Sample.postgres (TString "t") (VArray [VNumber 1])
              (Some {[ "bogus" := VBool true ]}) None Sample.counting) as (Hoptions & _ & _).
  split.
  - by apply Hinvalid.
  - apply Hoptions. unfold Postgres.insertCheckOptions.
    rewrite (rejectInvalidOptions_unsupported _ _ _ _ _ "bogus") by (by_evaluation).
    simpl. by repeat f_equal.
Defined.

(** ** Random text: its shape *)

Lemma append_cons c s1 s2 : String c s1 +:+ s2 = String c (s1 +:+ s2).
Proof. reflexivity. Qed.

Lemma append_nil s : EmptyString +:+ s = s.
Proof. reflexivity. Qed.

Lemma length_append s1 s2 :
  String.length (s1 +:+ s2) = String.length s1 + String.length s2.
Proof. induction s1 as [|c s1 IH]; [done|]. rewrite append_cons. simpl. by rewrite IH. Qed.

Lemma list_ascii_append s1 s2 :
  list_ascii_of_string (s1 +:+ s2)
  = (list_ascii_of_string s1 ++ list_ascii_of_string s2)%list.
Proof. induction s1 as [|c s1 IH]; [done|]. rewrite append_cons. simpl. by rewrite IH. Qed.

(** Every character of an encoded byte is one of the sixteen digits
    [0] to [9], [a] to [f]. *)
Lemma hexByte_digits (b : byte) :
  Forall (fun c => hexDigit (hexValue c) = c) (list_ascii_of_string (hexByte b)).
Proof. destruct b; repeat constructor. Qed.

Lemma toHex_length (bytes : list byte) :
  String.length (toHex bytes) = 2 * length bytes.
Proof.
  induction bytes as [|b bytes IH]; [done|].
  cbn [toHex length]. rewrite length_append, IH. unfold hexByte. simpl. lia.
Qed.

Lemma toHex_digits (bytes : list byte) :
  Forall (fun c => hexDigit (hexValue c) = c) (list_ascii_of_string (toHex bytes)).
Proof.
  induction bytes as [|b bytes IH]; [constructor|].
  cbn [toHex]. rewrite list_ascii_append. apply Forall_app. split; [|done].
  apply hexByte_digits.
Qed.

Lemma randomBytes_length n entropy : length (randomBytes n entropy).1 = n.
Proof. unfold randomBytes. simpl. by rewrite length_map, length_seq. Qed.

(** X4. A transaction id of Db2 is the hex text of the next ten bytes of
    the random source: twenty characters, each a digit [0-9a-f], from which
    the ten bytes can be read back; the call leaves the source ten bytes
    further, so the next id is made of the bytes that follow. *)
Theorem generateTransactionId_shape (entropy : Entropy) :
  let id := (Db2.generateTransactionId entropy).1 in
  let rest := (Db2.generateTransactionId entropy).2 in
  String.length id = 20
  /\ Forall (fun c => hexDigit (hexValue c) = c) (list_ascii_of_string id)
  /\ id = toHex (map entropy (seq 0 10))
  /\ (forall i, rest i = entropy (10 + i))
  /\ (Db2.generateTransactionId rest).1 = toHex (map entropy (seq 10 10))
  /\ (forall entropy', (Db2.generateTransactionId entropy').1 = id ->
        forall i, i < 10 -> entropy' i = entropy i).
Proof.
  intros id rest. subst id rest. unfold Db2.generateTransactionId.
  destruct (randomBytes 10 entropy) as [bytes rest] eqn:Hdraw.
  assert (bytes = map entropy (seq 0 10) /\ rest = fun i => entropy (10 + i))
    as [Hbytes Hrest] by (unfold randomBytes in Hdraw; by simplify_eq).
  cbn [fst snd]. split_and!.
  - rewrite toHex_length, Hbytes. by rewrite length_map, length_seq.
  - apply toHex_digits.
  - by rewrite Hbytes.
  - intros i. by rewrite Hrest.
  - rewrite Hrest. reflexivity.
  - intros entropy'. destruct (randomBytes 10 entropy') as [bytes' rest'] eqn:Hdraw'.
    assert (bytes' = map entropy' (seq 0 10)) as Hbytes'
      by (unfold randomBytes in Hdraw'; by simplify_eq).
    cbn [fst]. intros Hsame%toHex_inj i Hi.
    rewrite Hbytes, Hbytes' in Hsame.
    assert (map entropy' (seq 0 10) !! i = map entropy (seq 0 10) !! i) as Hlookup
      by (by rewrite Hsame).
    rewrite !list_lookup_fmap, !lookup_seq_lt in Hlookup by lia.
    simpl in Hlookup. by simplify_eq.
Qed.

(** Ids drawn from a source that agrees with the counting source on its
    first ten bytes. *)
Lemma generateTransactionId_shape_witness :
  (Db2.generateTransactionId Sample.counting).1 = "00010203040506070809"
  /\ (fun i => if (i <? 10)%nat then Sample.counting i else x00) 3 = Sample.counting 3.
Proof.
  destruct (generateTransactionId_shape Sample.counting)
    as (_ & _ & Hid & _ & _ & Hbytes).
  split.
  - rewrite Hid. by vm_compute.
  - apply (Hbytes (fun i => if (i <? 10)%nat then Sample.counting i else x00));
      [by vm_compute|lia].
Defined.

(** X5. The exception mode of [insertQuery]: when the call passes its
    checks, some column has a value and [options.exception] is set, the
    values are inlined (no [bindParam] reaches the escaper and no bind is
    returned), eight random bytes are drawn, and the statement is wrapped in
    a function whose body stands between two copies of one delimiter,
    [$func_] followed by the sixteen hex digits of those bytes and [$]; the
    batch ends by dropping the function. *)
Theorem insertQuery_exception_mode (g : Generator) (tableName : TableNameOrModel)
    (value : Value) (options : option (gmap string Value))
    (attributeHash : option (list (string * option Attribute)))
    (entropy : Entropy) (entries : list (string * Value)) (io : InsertOptions)
    (am : list (string * option Attribute)) :
  Postgres.insertPrelude g tableName value options attributeHash = Ok (entries, io, am) ->
  (Postgres.insertValueMap g io am
     (removeNullishValuesFromHash g entries (default false (omitNull g)))).1 <> [] ->
  truthy (getOpt options "exception") = true ->
  let delimiter := "$func_" +:+ toHex (randomBytes 8 entropy).1 +:+ "$" in
  bindParam io = BindUndefined
  /\ String.length delimiter = 23
  /\ Forall (fun c => hexDigit (hexValue c) = c)
       (list_ascii_of_string (toHex (randomBytes 8 entropy).1))
  /\ exists fragments,
       Postgres.insertQuery g tableName value options attributeHash entropy
       = (Ok {| query := joinSQLFragments fragments; bindParams := None |},
          (randomBytes 8 entropy).2)
       /\ fragments !! 1 = Some delimiter
       /\ fragments !! 12 = Some delimiter
       /\ fragments !! 2 = Some "BEGIN INSERT INTO"
       /\ last fragments = Some "DROP FUNCTION IF EXISTS pg_temp.testfunc()".
Proof.
  intros Hprelude Hvalues Hmode delimiter.
  pose proof (insertPrelude_Ok _ _ _ _ _ _ _ _ Hprelude) as (_ & _ & Hio & _).
  assert (truthy (get (spread io) "exception") = true) as Hmode'
    by (by rewrite Hio, makeInsertOptions_spread).
  split_and!.
  - rewrite Hio. unfold Postgres.makeInsertOptions.
    rewrite Hio in Hmode'. unfold Postgres.makeInsertOptions in Hmode'.
    destruct (truthy (prependSearchPath g) || _ || _) eqn:Hreset; [done|].
    simpl in Hmode'. rewrite Hmode' in Hreset. by rewrite orb_true_r in Hreset.
  - unfold delimiter. rewrite !length_append, toHex_length, randomBytes_length.
    reflexivity.
  - apply toHex_digits.
  - unfold Postgres.insertQuery. rewrite Hprelude.
    destruct (Postgres.insertValueMap g io am _) as [valueMap bind]. simpl in Hvalues.
    assert ((length valueMap =? 0)%nat = false) as ->
      by (apply Nat.eqb_neq; by destruct valueMap).
    rewrite Hmode'. unfold delimiter.
    destruct (randomBytes 8 entropy) as [bytes rest]. cbn [fst snd].
    eexists. split; [reflexivity|]. by split_and!.
Qed.

(** [insertQuery('t', {a: 1}, {exception: true})] on the counting source. *)
Lemma insertQuery_exception_mode_witness :
  exists fragments,
    Postgres.insertQuery Sample.postgres (TString "t") (VObject [("a", VNumber 1)])
      (Some {[ "exception" := VBool true ]}) None Sample.counting
    = (Ok {| query := joinSQLFragments fragments; bindParams := None |},
       (randomBytes 8 Sample.counting).2)
    /\ fragments !! 1 = Some "$func_0001020304050607$"
    /\ fragments !! 12 = Some "$func_0001020304050607$".
Proof.
  destruct (insertQuery_exception_mode Sample.postgres (TString "t")
              (VObject [("a", VNumber 1)]) (Some {[ "exception" := VBool true ]}) None
              Sample.counting [("a", VNumber 1)]
              (Postgres.makeInsertOptions Sample.postgres (TString "t")
                 (Some {[ "exception" := VBool true ]}))
              [])
    as (_ & _ & _ & fragments & Hquery & Hopen & Hclose & _).
  - by vm_compute.
  - by vm_compute.
  - by vm_compute.
  - exists fragments. split_and!; [exact Hquery|exact Hopen|exact Hclose].
Defined.

(** ** Db2 showConstraintsQuery: the constraint type filter *)

Lemma getConstraintType_cases type :
  (type = "CHECK" /\ Db2.getConstraintType type = Ok "K")
  \/ (type = "FOREIGN KEY" /\ Db2.getConstraintType type = Ok "F")
  \/ (type = "PRIMARY KEY" /\ Db2.getConstraintType type = Ok "P")
  \/ (type = "UNIQUE" /\ Db2.getConstraintType type = Ok "U")
  \/ (type <> "CHECK" /\ type <> "FOREIGN KEY" /\ type <> "PRIMARY KEY"
      /\ type <> "UNIQUE"
      /\ Db2.getConstraintType type
         = Throw (JsError ("Constraint type " +:+ type +:+ " is not supported"))).
Proof.
  unfold Db2.getConstraintType.
  destruct (String.eqb_spec type "CHECK") as [->|?]; [by left|].
  destruct (String.eqb_spec type "FOREIGN KEY") as [->|?]; [right; by left|].
  destruct (String.eqb_spec type "PRIMARY KEY") as [->|?]; [do 2 right; by left|].
  destruct (String.eqb_spec type "UNIQUE") as [->|?]; [do 3 right; by left|].
  do 4 right. by split_and!.
Qed.

(** X6. The constraint type filter of Db2's [showConstraintsQuery] and the
    type column it selects agree: the letter the filter compares [c.TYPE]
    with is the letter the CASE of the select list reads back as that very
    type, for each of the four types and for no other string; the CASE of
    the query is the text of these four branches. A filter on any other
    non-empty type makes the call throw, naming the type, and with no type
    filter (absent or empty) the call never throws. *)
Theorem showConstraintsQuery_type_filter (g : Generator)
    (tableOrModel : TableNameOrModel) (options : option ShowConstraints.Options) :
  (forall type code,
     Db2.getConstraintType type = Ok code
     <-> lookupEntry code Db2.constraintTypeCase = Some type)
  /\ Db2.constraintTypeColumn
     = Db2.caseText "c.TYPE" Db2.constraintTypeCase +:+ " AS " +:+ dq +:+
       "constraintType" +:+ dq +:+ ","
  /\ (forall e,
        Db2.showConstraintsQuery g tableOrModel options = Throw e
        <-> exists type,
              options ≫= ShowConstraints.constraintType = Some type
              /\ type <> EmptyString
              /\ lookupEntry type (map (fun branch : string * string =>
                                           (branch.2, branch.1))
                                      Db2.constraintTypeCase) = None
              /\ e = JsError ("Constraint type " +:+ type +:+ " is not supported")).
Proof.
  split_and!.
  - intros type code. split.
    + intros Hcode.
      destruct (getConstraintType_cases type)
        as [[-> H]|[[-> H]|[[-> H]|[[-> H]|(_ & _ & _ & _ & H)]]]];
        rewrite H in Hcode; by simplify_eq.
    + unfold Db2.constraintTypeCase. cbn [lookupEntry].
      destruct (String.eqb_spec "P" code) as [<-|?]; [by intros [= <-]|].
      destruct (String.eqb_spec "F" code) as [<-|?]; [by intros [= <-]|].
      destruct (String.eqb_spec "K" code) as [<-|?]; [by intros [= <-]|].
      destruct (String.eqb_spec "U" code) as [<-|?]; [by intros [= <-]|].
      done.
  - reflexivity.
  - intros e. unfold Db2.showConstraintsQuery, Db2.constraintTypeFragment.
    remember (map (fun branch : string * string => (branch.2, branch.1))
                Db2.constraintTypeCase) as back eqn:Hback.
    destruct (options ≫= ShowConstraints.constraintType) as [type|]; simpl.
    + destruct (String.eqb_spec type EmptyString) as [->|Hne]; simpl.
      { split; [done|]. by intros (type & [= <-] & ? & _). }
      destruct (getConstraintType_cases type)
        as [[-> H]|[[-> H]|[[-> H]|[[-> H]|(H1 & H2 & H3 & H4 & H)]]]];
        rewrite H; simpl.
      1-4: split; [done|]; intros (type & [= <-] & _ & Hnone & _); by subst back.
      split.
      * intros [= <-]. exists type. split_and!; [done..| |done].
        subst back. unfold Db2.constraintTypeCase. cbn [map lookupEntry fst snd].
        destruct (String.eqb_spec "PRIMARY KEY" type) as [Heq|_]; [by destruct H3|].
        destruct (String.eqb_spec "FOREIGN KEY" type) as [Heq|_]; [by destruct H2|].
        destruct (String.eqb_spec "CHECK" type) as [Heq|_]; [by destruct H1|].
        destruct (String.eqb_spec "UNIQUE" type) as [Heq|_]; [by destruct H4|].
        done.
      * by intros (type' & [= <-] & _ & _ & ->).
    + split; [done|]. by intros (type & ? & _).
Qed.

(** ** IBM i: the final semicolon *)

Lemma lastChar_append_char s c : lastChar (s +:+ String c EmptyString) = Some c.
Proof.
  induction s as [|d s IH]; [done|]. rewrite append_cons. simpl. rewrite IH.
  destruct s; [done|]. by rewrite append_cons.
Qed.

Lemma dropLast_append_char s c : dropLast (s +:+ String c EmptyString) = s.
Proof.
  induction s as [|d s IH]; [done|]. rewrite append_cons. simpl. rewrite IH.
  destruct s; [done|]. by rewrite append_cons.
Qed.

Lemma lastChar_Some s c : lastChar s = Some c -> s = dropLast s +:+ String c EmptyString.
Proof.
  induction s as [|d s IH]; [done|]. simpl.
  destruct s as [|d' s]; [by intros [= ->]|].
  intros Hlast. rewrite append_cons. f_equal. by apply IH.
Qed.

(** X7. On IBM i, [insertQuery] and [bulkInsertQuery] hand back the query
    of the superclass unchanged when it does not end in a semicolon;
    otherwise the semicolon is dropped and the statement wrapped in
    [SELECT * FROM FINAL TABLE (...)]. Either way the query returned does
    not end in a semicolon, and the bind parameters are those of the
    superclass. *)
Theorem ibmi_insert_final_table {Args : Type} (superInsert : Args -> QueryWithBindParams)
    (superBulkInsert : Args -> string) (args : Args) :
  (forall statement, query (superInsert args) = statement +:+ ";" ->
     query (IBMi.insertQuery superInsert args)
     = "SELECT * FROM FINAL TABLE (" +:+ statement +:+ ")")
  /\ (lastChar (query (superInsert args)) <> Some ";"%char ->
      IBMi.insertQuery superInsert args = superInsert args)
  /\ lastChar (query (IBMi.insertQuery superInsert args)) <> Some ";"%char
  /\ bindParams (IBMi.insertQuery superInsert args) = bindParams (superInsert args)
  /\ (forall statement, superBulkInsert args = statement +:+ ";" ->
        IBMi.bulkInsertQuery superBulkInsert args
        = "SELECT * FROM FINAL TABLE (" +:+ statement +:+ ")")
  /\ (lastChar (superBulkInsert args) <> Some ";"%char ->
      IBMi.bulkInsertQuery superBulkInsert args = superBulkInsert args)
  /\ lastChar (IBMi.bulkInsertQuery superBulkInsert args) <> Some ";"%char.
Proof.
  assert (forall s, lastChar ("SELECT * FROM FINAL TABLE (" +:+ s +:+ ")") <> Some ";"%char)
    as Hwrapped.
  { intros s. change (?a +:+ s +:+ ")") with (a +:+ (s +:+ ")")).
    assert (forall a b, a +:+ (b +:+ ")") = (a +:+ b) +:+ ")") as ->.
    { intros a b. induction a as [|c a IH]; [done|]. by rewrite !append_cons, IH. }
    by rewrite lastChar_append_char. }
  unfold IBMi.insertQuery, IBMi.bulkInsertQuery. split_and!.
  - intros statement ->. by rewrite lastChar_append_char, dropLast_append_char.
  - intros Hlast. destruct (lastChar (query (superInsert args))) as [c|]; [|done].
    destruct (Ascii.eqb_spec c ";") as [->|Hne]; [done|].
    destruct c as [[] [] [] [] [] [] [] []]; try done.
  - destruct (lastChar (query (superInsert args))) as [c|] eqn:Hlast.
    + destruct (Ascii.eqb_spec c ";") as [->|Hne]; [apply Hwrapped|].
      destruct c as [[] [] [] [] [] [] [] []]; try (rewrite Hlast; congruence).
      done.
    + by rewrite Hlast.
  - destruct (lastChar (query (superInsert args))) as [c|]; [|done].
    destruct c as [[] [] [] [] [] [] [] []]; done.
  - intros statement ->. by rewrite lastChar_append_char, dropLast_append_char.
  - intros Hlast. destruct (lastChar (superBulkInsert args)) as [c|]; [|done].
    destruct (Ascii.eqb_spec c ";") as [->|Hne]; [done|].
    destruct c as [[] [] [] [] [] [] [] []]; try done.
  - destruct (lastChar (superBulkInsert args)) as [c|] eqn:Hlast.
    + destruct (Ascii.eqb_spec c ";") as [->|Hne]; [apply Hwrapped|].
      destruct c as [[] [] [] [] [] [] [] []]; try (rewrite Hlast; congruence).
      done.
    + by rewrite Hlast.
Qed.

(** An insert that ends in a semicolon, and one that does not. *)
Lemma ibmi_insert_final_table_witness :
  query (IBMi.insertQuery
           (fun table : string =>
              {| query := "INSERT INTO " +:+ table +:+ " VALUES (1);";
                 bindParams := None |}) "t")
  = "SELECT * FROM FINAL TABLE (INSERT INTO t VALUES (1))"
  /\ IBMi.bulkInsertQuery (fun table : string => "INSERT INTO " +:+ table) "t"
     = "INSERT INTO t".
Proof.
  destruct (ibmi_insert_final_table
              (fun table : string =>
                 {| query := "INSERT INTO " +:+ table +:+ " VALUES (1);";
                    bindParams := None |})
              (fun table : string => "INSERT INTO " +:+ table) "t")
    as (Hwrap & _ & _ & _ & _ & Hsame & _).
  split.
  - by rewrite (Hwrap "INSERT INTO t VALUES (1)").
  - by rewrite Hsame.
Defined.

Lemma append_assoc a b c : (a +:+ b) +:+ c = a +:+ (b +:+ c).
Proof. induction a as [|d a IH]; [done|]. by rewrite !append_cons, IH. Qed.

(** X8. On IBM i, [selectQuery] removes one final semicolon and no more:
    a query of the superclass that ends in a semicolon comes back without
    it, any other comes back unchanged, and the result still ends in a
    semicolon exactly when the superclass query ended in two. *)
Theorem ibmi_selectQuery_strips_one_semicolon {Args : Type} (superSelect : Args -> string)
    (args : Args) :
  (forall statement, superSelect args = statement +:+ ";" ->
     IBMi.selectQuery superSelect args = statement)
  /\ (lastChar (superSelect args) <> Some ";"%char ->
      IBMi.selectQuery superSelect args = superSelect args)
  /\ (lastChar (IBMi.selectQuery superSelect args) = Some ";"%char
      <-> exists statement, superSelect args = statement +:+ ";;").
Proof.
  assert (forall statement,
            superSelect args = statement +:+ ";" ->
            IBMi.selectQuery superSelect args = statement) as Hstrip.
  { intros statement Hs. unfold IBMi.selectQuery.
    by rewrite Hs, lastChar_append_char, dropLast_append_char. }
  assert (lastChar (superSelect args) <> Some ";"%char ->
          IBMi.selectQuery superSelect args = superSelect args) as Hsame.
  { intros Hlast. unfold IBMi.selectQuery.
    destruct (lastChar (superSelect args)) as [c|]; [|done].
    destruct (Ascii.eqb_spec c ";") as [->|Hne]; [done|].
    destruct c as [[] [] [] [] [] [] [] []]; done. }
  split_and!; [exact Hstrip|exact Hsame|]. split.
  - intros Hlast.
    destruct (decide (lastChar (superSelect args) = Some ";"%char)) as [Hsuper|Hsuper].
    + apply lastChar_Some in Hsuper. rewrite (Hstrip _ Hsuper) in Hlast.
      apply lastChar_Some in Hlast. exists (dropLast (dropLast (superSelect args))).
      rewrite Hsuper at 1. rewrite Hlast at 1. by rewrite append_assoc.
    + by rewrite (Hsame Hsuper) in Hlast.
  - intros [statement Hs].
    rewrite (Hstrip (statement +:+ ";")) by (by rewrite Hs, append_assoc).
    apply lastChar_append_char.
Qed.

(** [SELECT 1;] loses its semicolon, [SELECT 1;;] keeps one. *)
Lemma ibmi_selectQuery_strips_one_semicolon_witness :
  IBMi.selectQuery (fun tail : string => "SELECT 1" +:+ tail) ";" = "SELECT 1"
  /\ IBMi.selectQuery (fun tail : string => "SELECT 1" +:+ tail) EmptyString = "SELECT 1"
  /\ lastChar (IBMi.selectQuery (fun tail : string => "SELECT 1" +:+ tail) ";;")
     = Some ";"%char.
Proof.
  split_and!.
  - by apply (ibmi_selectQuery_strips_one_semicolon
                (fun tail : string => "SELECT 1" +:+ tail) ";").
  - by apply (ibmi_selectQuery_strips_one_semicolon
                (fun tail : string => "SELECT 1" +:+ tail) EmptyString).
  - apply (ibmi_selectQuery_strips_one_semicolon
             (fun tail : string => "SELECT 1" +:+ tail) ";;").
    by exists "SELECT 1".
Defined.

(** ** IBM i createTableQuery: the columns *)

Lemma append_empty_r s : s +:+ EmptyString = s.
Proof. induction s as [|c s IH]; [done|]. by rewrite append_cons, IH. Qed.

Lemma prefix_split needle hay :
  String.prefix needle hay = true ->
  hay = needle +:+ dropChars (String.length needle) hay.
Proof.
  revert hay. induction needle as [|c needle IH]; intros hay; [done|].
  destruct hay as [|d hay]; [done|]. simpl.
  destruct (ascii_dec c d) as [->|?]; [|done].
  intros Hprefix. rewrite append_cons. f_equal. by apply IH.
Qed.

(** [replace] with the empty string takes out one occurrence of the
    needle and leaves the text around it. *)
Lemma replace_removes needle hay :
  includes needle hay = true ->
  exists before after,
    hay = before +:+ needle +:+ after
    /\ replace needle EmptyString hay = before +:+ after.
Proof.
  induction hay as [|c hay IH].
  - simpl. rewrite orb_false_r. intros Hprefix.
    exists EmptyString, (dropChars (String.length needle) EmptyString).
    rewrite Hprefix. split; [|done]. rewrite append_nil. by apply prefix_split.
  - cbn [includes replace].
    destruct (String.prefix needle (String c hay)) eqn:Hprefix.
    + intros _. exists EmptyString, (dropChars (String.length needle) (String c hay)).
      split; [|done]. rewrite append_nil. by apply prefix_split.
    + simpl. intros Hrest. destruct (IH Hrest) as (before & after & Hhay & Hreplace).
      exists (String c before), after. rewrite !append_cons.
      split; by f_equal.
Qed.

Lemma columnStep_fold g (attributes : list (string * string)) :
  forall primaryKeys attrStr,
    fold_left (IBMi.columnStep g) attributes (primaryKeys, attrStr)
    = ((primaryKeys
        ++ map fst (List.filter (fun entry : string * string =>
                                   includes "PRIMARY KEY" entry.2) attributes))%list,
       (attrStr
        ++ map (fun entry : string * string =>
                  quoteIdentifier g (VString entry.1) +:+ " " +:+
                  (if includes "PRIMARY KEY" entry.2
                   then replace "PRIMARY KEY" EmptyString entry.2 else entry.2))
             attributes)%list).
Proof.
  induction attributes as [|[attr dataType] attributes IH]; intros primaryKeys attrStr.
  - simpl. by rewrite !app_nil_r.
  - cbn [fold_left]. unfold IBMi.columnStep at 2. cbn [List.filter map fst snd].
    destruct (includes "PRIMARY KEY" dataType); rewrite IH; cbn [map fst snd];
      by rewrite <- !app_assoc.
Qed.

(** X9. [createTableQuery] on IBM i reads the columns in the order of the
    attributes: every column is defined, the primary keys are the columns
    whose definition contains PRIMARY KEY, in that order, and the
    definition of such a column is its text with one PRIMARY KEY taken out;
    without options, the statement closes with the PRIMARY KEY clause over
    these columns when the clause has any text. *)
Theorem ibmi_createTableQuery_columns (g : Generator) (tableName : TableNameOrModel)
    (attributes : list (string * string)) :
  let primaryKeys :=
    map fst (List.filter (fun entry : string * string =>
                            includes "PRIMARY KEY" entry.2) attributes) in
  let pkString :=
    join ", " (map (fun pk => quoteIdentifier g (VString pk)) primaryKeys) in
  (IBMi.columns g attributes).1 = primaryKeys
  /\ length (IBMi.columns g attributes).2 = length attributes
  /\ (forall i attr dataType,
        attributes !! i = Some (attr, dataType) ->
        (includes "PRIMARY KEY" dataType = false ->
         (IBMi.columns g attributes).2 !! i
         = Some (quoteIdentifier g (VString attr) +:+ " " +:+ dataType))
        /\ (includes "PRIMARY KEY" dataType = true ->
            exists before after,
              dataType = before +:+ "PRIMARY KEY" +:+ after
              /\ (IBMi.columns g attributes).2 !! i
                 = Some (quoteIdentifier g (VString attr) +:+ " " +:+ before +:+ after)))
  /\ IBMi.createTableQuery g tableName attributes None
     = Ok ("BEGIN" +:+ IBMi.nl +:+
           "    DECLARE CONTINUE HANDLER FOR SQLSTATE VALUE '42710'" +:+ IBMi.nl +:+
           "      BEGIN END;" +:+ IBMi.nl +:+
           "      CREATE TABLE " +:+ quoteTable g tableName +:+ " (" +:+
           ((if (0 <? String.length pkString)%nat
             then join ", " (IBMi.columns g attributes).2 +:+
                  ", PRIMARY KEY (" +:+ pkString +:+ ")"
             else join ", " (IBMi.columns g attributes).2)) +:+
           ");" +:+ IBMi.nl +:+ "      END").
Proof.
  intros primaryKeys pkString.
  assert (IBMi.columns g attributes
          = (primaryKeys,
             map (fun entry : string * string =>
                    quoteIdentifier g (VString entry.1) +:+ " " +:+
                    (if includes "PRIMARY KEY" entry.2
                     then replace "PRIMARY KEY" EmptyString entry.2 else entry.2))
               attributes)) as Hcolumns.
  { unfold IBMi.columns. by rewrite columnStep_fold. }
  split_and!.
  - by rewrite Hcolumns.
  - rewrite Hcolumns. simpl. by rewrite length_map.
  - intros i attr dataType Hi. rewrite Hcolumns. cbn [snd].
    rewrite list_lookup_fmap, Hi. cbn [fmap option_fmap option_map fst snd]. split.
    + by intros ->.
    + intros Hpk. rewrite Hpk.
      destruct (replace_removes "PRIMARY KEY" dataType Hpk)
        as (before & after & Hdata & Hreplace).
      exists before, after. split; [done|]. by rewrite Hreplace.
  - unfold IBMi.createTableQuery. rewrite Hcolumns. cbn [mbind Result_bind fst snd].
    simpl getOpt. cbn [truthy]. fold pkString.
    unfold mbind, Result_bind. cbv beta iota.
    change (join EmptyString []) with EmptyString. rewrite append_empty_r.
    by destruct (0 <? String.length pkString)%nat.
Qed.

(** A key column and a plain column. *)
Lemma ibmi_createTableQuery_columns_witness :
  (IBMi.columns Sample.ibmi [("id", "INTEGER PRIMARY KEY"); ("name", "VARCHAR(255)")]).1
  = ["id"]
  /\ (IBMi.columns Sample.ibmi
        [("id", "INTEGER PRIMARY KEY"); ("name", "VARCHAR(255)")]).2 !! 1
     = Some (dq +:+ "name" +:+ dq +:+ " VARCHAR(255)")
  /\ exists before after,
       "INTEGER PRIMARY KEY" = before +:+ "PRIMARY KEY" +:+ after
       /\ (IBMi.columns Sample.ibmi
             [("id", "INTEGER PRIMARY KEY"); ("name", "VARCHAR(255)")]).2 !! 0
          = Some (dq +:+ "id" +:+ dq +:+ " " +:+ before +:+ after).
Proof.
  destruct (ibmi_createTableQuery_columns Sample.ibmi (TString "t")
              [("id", "INTEGER PRIMARY KEY"); ("name", "VARCHAR(255)")])
    as (Hkeys & _ & Hdefinitions & _).
  split_and!.
  - exact Hkeys.
  - by apply (Hdefinitions 1 "name" "VARCHAR(255)").
  - by apply (Hdefinitions 0 "id" "INTEGER PRIMARY KEY").
Defined.

(** ** renameTableQuery, addIndexQuery and removeIndexQuery: when they go through *)

(** X10. On Postgres, [renameTableQuery] returns a statement exactly when
    the two tables are in the same schema, or the move is asked for with
    [options.changeSchema] and the table name is unchanged. Within one
    schema the statement is the RENAME TO, whatever the options are. *)
Theorem postgres_renameTableQuery_succeeds_iff (g : Generator)
    (beforeTableName afterTableName : TableNameOrModel)
    (options : option (gmap string Value)) :
  let beforeTable := extractTableDetails g beforeTableName in
  let afterTable := extractTableDetails g afterTableName in
  (isOk (Postgres.renameTableQuery g beforeTableName afterTableName options) = true
   <-> schema beforeTable = schema afterTable
       \/ (truthy (getOpt options "changeSchema") = true
           /\ tableName beforeTable = tableName afterTable))
  /\ (schema beforeTable = schema afterTable ->
      Postgres.renameTableQuery g beforeTableName afterTableName options
      = Ok ("ALTER TABLE " +:+ quoteTable g beforeTableName +:+ " RENAME TO " +:+
            quoteIdentifier g (VString (tableName afterTable)))).
Proof.
  intros beforeTable afterTable. unfold Postgres.renameTableQuery.
  fold beforeTable afterTable. split.
  - destruct (decide (schema beforeTable <> schema afterTable)) as [Hdiffer|Hsame].
    + destruct (truthy (getOpt options "changeSchema")); simpl.
      * destruct (decide (tableName beforeTable <> tableName afterTable))
          as [Hname|Hname]; simpl.
        -- split; [done|]. by intros [?|[_ ?]].
        -- split; [|done]. intros _. right. split; [done|].
           by destruct (decide (tableName beforeTable = tableName afterTable)).
      * split; [done|]. by intros [?|[? _]].
    + simpl. split; [|done]. intros _. left.
      by destruct (decide (schema beforeTable = schema afterTable)).
  - intros Hsame. by rewrite decide_False by (intros Hne; by apply Hne).
Qed.

(** Renaming within the default schema. *)
Lemma postgres_renameTableQuery_succeeds_iff_witness :
  Postgres.renameTableQuery Sample.postgres (TString "old") (TString "new")
    (Some {[ "changeSchema" := VBool true ]})
  = Ok ("ALTER TABLE " +:+ dq +:+ "old" +:+ dq +:+ " RENAME TO " +:+ dq +:+ "new" +:+ dq).
Proof.
  destruct (postgres_renameTableQuery_succeeds_iff Sample.postgres (TString "old")
              (TString "new") (Some {[ "changeSchema" := VBool true ]})) as [_ Hrename].
  rewrite Hrename; by vm_compute.
Defined.

(** X11. On Db2, [addIndexQuery] hands the call on to the superclass,
    arguments unchanged, exactly when the options have no [include] key, or
    [options.unique] is set, or [options.type] is the word unique in any
    letter case; the result is then the superclass's. *)
Theorem db2_addIndexQuery_delegates_iff (g : Generator)
    (tableOrModel : TableNameOrModel) (o : gmap string Value) :
  (Db2.addIndexDispatch tableOrModel o = Db2.Delegated tableOrModel o
   <-> hasKey o "include" = false
       \/ truthy (get o "unique") = true
       \/ exists s, get o "type" = VString s /\ toLowerCase s = "unique")
  /\ (Db2.addIndexDispatch tableOrModel o = Db2.Delegated tableOrModel o ->
      Db2.addIndexQuery g tableOrModel o = superAddIndexQuery g tableOrModel o).
Proof.
  split.
  - unfold Db2.addIndexDispatch, Db2.typeIsNotUnique.
    destruct (hasKey o "include"); simpl; [|split; [by left|done]].
    destruct (truthy (get o "unique")); simpl; [split; [right; by left|done]|].
    destruct (get o "type") as [| |b|n|s|items|entries|name|m]; simpl;
      try (split; [done|]; by intros [?|[?|[s' [? _]]]]).
    destruct (String.eqb_spec (toLowerCase s) "unique") as [Heq|Hne]; simpl.
    + split; [|done]. intros _. do 2 right. by exists s.
    + split; [done|]. intros [?|[?|[s' [[= <-] ?]]]]; done.
  - unfold Db2.addIndexQuery. by intros ->.
Qed.

(** A unique index with INCLUDE columns, its type written in capitals. *)
Lemma db2_addIndexQuery_delegates_iff_witness :
  Db2.addIndexQuery Sample.db2 (TString "users")
    {[ "fields" := VArray [VString "username"];
       "include" := VArray [VString "first_name"];
       "type" := VString "UNIQUE" ]}
  = superAddIndexQuery Sample.db2 (TString "users")
      {[ "fields" := VArray [VString "username"];
         "include" := VArray [VString "first_name"];
         "type" := VString "UNIQUE" ]}.
Proof.
  destruct (db2_addIndexQuery_delegates_iff Sample.db2 (TString "users")
              {[ "fields" := VArray [VString "username"];
                 "include" := VArray [VString "first_name"];
                 "type" := VString "UNIQUE" ]}) as [Hiff Hsuper].
  apply Hsuper, Hiff. do 2 right. exists "UNIQUE". split; by vm_compute.
Defined.

(** X12. On Postgres, [removeIndexQuery] throws exactly when both
    [options.cascade] and [options.concurrently] are set, naming the
    dialect; otherwise it is a DROP INDEX on the index in the table's
    schema, and a name given as a string is used as it is, whatever the
    table is called. *)
Theorem postgres_removeIndexQuery_succeeds_iff (g : Generator)
    (tableOrModel : TableNameOrModel) (index : IndexNameOrAttributes)
    (options : option (gmap string Value)) :
  (isOk (Postgres.removeIndexQuery g tableOrModel index options) = false
   <-> truthy (getOpt options "cascade") = true
       /\ truthy (getOpt options "concurrently") = true)
  /\ (isOk (Postgres.removeIndexQuery g tableOrModel index options) = false ->
      Postgres.removeIndexQuery g tableOrModel index options
      = Throw (JsError ("Cannot specify both concurrently and cascade options in removeIndexQuery for "
                        +:+ dialectName g +:+ " dialect")))
  /\ (forall name,
        index = IndexName name ->
        isOk (Postgres.removeIndexQuery g tableOrModel index options) = true ->
        Postgres.removeIndexQuery g tableOrModel index options
        = Ok (joinSQLFragments [
            "DROP INDEX";
            if truthy (getOpt options "concurrently") then "CONCURRENTLY" else EmptyString;
            if truthy (getOpt options "ifExists") then "IF EXISTS" else EmptyString;
            quoteIdentifier g (ofOptString (schema (extractTableDetails g tableOrModel)))
              +:+ "." +:+ quoteIdentifier g (VString name);
            if truthy (getOpt options "cascade") then "CASCADE" else EmptyString ])).
Proof.
  unfold Postgres.removeIndexQuery.
  destruct (truthy (getOpt options "cascade")),
    (truthy (getOpt options "concurrently")); simpl; split_and!;
    try done; try (split; [done|by intros [? ?]]); by intros name ->.
Qed.

(** [removeIndex('users', 'unique_names')] with [ifExists], and with both
    [cascade] and [concurrently]. *)
Lemma postgres_removeIndexQuery_succeeds_iff_witness :
  Postgres.removeIndexQuery Sample.postgres (TString "users") (IndexName "unique_names")
    (Some {[ "ifExists" := VBool true ]})
  = Ok ("DROP INDEX IF EXISTS " +:+ dq +:+ "public" +:+ dq +:+ "." +:+ dq +:+
        "unique_names" +:+ dq)
  /\ Postgres.removeIndexQuery Sample.postgres (TString "users") (IndexName "unique_names")
       (Some {[ "cascade" := VBool true; "concurrently" := VBool true ]})
     = Throw (JsError "Cannot specify both concurrently and cascade options in removeIndexQuery for postgres dialect").
Proof.
  destruct (postgres_removeIndexQuery_succeeds_iff Sample.postgres (TString "users")
              (IndexName "unique_names") (Some {[ "ifExists" := VBool true ]}))
    as (_ & _ & Hdrop).
  destruct (postgres_removeIndexQuery_succeeds_iff Sample.postgres (TString "users")
              (IndexName "unique_names")
              (Some {[ "cascade" := VBool true; "concurrently" := VBool true ]}))
    as (Hiff & Hthrow & _).
  split.
  - rewrite (Hdrop "unique_names"); by vm_compute.
  - rewrite Hthrow; [by vm_compute|]. apply Hiff. split; by vm_compute.
Defined.

(** ** IBM i changeColumnQuery *)

Lemma prefix_nil s : String.prefix EmptyString s = true.
Proof. by destruct s. Qed.

Lemma prefix_cons a N c s :
  String.prefix (String a N) (String c s) = true <-> a = c /\ String.prefix N s = true.
Proof.
  simpl. destruct (ascii_dec a c) as [->|Hne].
  - split; [by intros ?|by intros [_ ?]].
  - split; [done|]. by intros [? _].
Qed.










(** ** IBM i attributeToSQL *)

Lemma prefix_append needle rest : String.prefix needle (needle +:+ rest) = true.
Proof.
  induction needle as [|c needle IH]; [apply prefix_nil|].
  rewrite append_cons. by apply prefix_cons.
Qed.

Lemma includes_append_l needle before s :
  includes needle s = true -> includes needle (before +:+ s) = true.
Proof.
  intros Hs. induction before as [|c before IH]; [done|].
  rewrite append_cons. cbn [includes]. rewrite IH. apply orb_true_r.
Qed.

Lemma includes_append_r needle s after :
  includes needle s = true -> includes needle (s +:+ after) = true.
Proof.
  induction s as [|c s IH].
  - simpl. rewrite orb_false_r. destruct needle; [|done]. intros _.
    rewrite append_nil. destruct after; by simpl.
  - cbn [includes]. intros [Hprefix|Hrest]%orb_true_iff.
    + rewrite append_cons. cbn [includes].
      assert (String.prefix needle (String c (s +:+ after)) = true) as ->; [|done].
      rewrite <- append_cons. rewrite (prefix_split _ _ Hprefix), append_assoc.
      apply prefix_append.
    + rewrite append_cons. cbn [includes]. rewrite (IH Hrest). apply orb_true_r.
Qed.

Lemma includes_if_append needle (condition : bool) s after :
  includes needle s = true ->
  includes needle (if condition then s +:+ after else s) = true.
Proof. intros Hs. destruct condition; [by apply includes_append_r|done]. Qed.

(** Looks for the marker from the end of the template backwards. *)
Ltac find_marker :=
  repeat first
    [ by (apply includes_append_l; first [done | by apply includes_append_r])
    | progress cbv iota
    | match goal with
      | |- includes _ (if ?c then _ else _) = true => destruct c
      | |- includes _ (match ?o with _ => _ end) = true => destruct o
      end
    | apply includes_append_r ].

(** The template of [attributeToSQL] is built in stages, each one the
    previous template with or without a suffix. These tactics go through the
    stages one at a time, so that a stage is reasoned about once. *)
Ltac open_attributeToSQL :=
  cbv beta delta [IBMi.attributeToSQL];
  lazymatch goal with
  | |- includes ?m (let x := ?v in @?body x) = true =>
      change (includes m (body v) = true); cbv beta iota
  end.

Ltac name_stage :=
  lazymatch goal with
  | |- includes ?m (let x := ?v in @?body x) = true =>
      let template := fresh "template" in
      pose (template := v); change (includes m (body template) = true); cbv beta
  end.

Ltac hide_stage :=
  match goal with
  | template := _ |- _ => clearbody template
  end.

(** X14. What [attributeToSQL] writes is what the table methods look for:
    the definition of an attribute with [primaryKey] contains PRIMARY KEY,
    so [createTableQuery] takes its column as a primary key; the definition
    of an attribute with [references] contains REFERENCES, so
    [changeColumnQuery] makes it a foreign key constraint and not a type
    change. *)
Theorem ibmi_attributeToSQL_markers (g : Generator)
    (defaultValueSchemable : Value -> bool) (attribute : IBMi.Column.Attribute)
    (options : option IBMi.Column.Options) (column : string)
    (tableName : TableNameOrModel) :
  let definition := IBMi.attributeToSQL g defaultValueSchemable (inl attribute) options in
  (IBMi.Column.primaryKey attribute = true ->
   includes "PRIMARY KEY" definition = true
   /\ (IBMi.columns g [(column, definition)]).1 = [column])
  /\ (IBMi.Column.references attribute <> None ->
      includes "REFERENCES" definition = true
      /\ IBMi.changeColumnQuery g tableName [(column, definition)]
         = "ALTER TABLE " +:+ quoteTable g tableName +:+ " ADD CONSTRAINT " +:+
           quoteIdentifier g (VString column) +:+ " FOREIGN KEY (" +:+
           quoteIdentifier g (VString column) +:+ ") " +:+
           IBMi.removeBeforeReferences 0 definition).
Proof.
  intros definition. split.
  - intros Hkey.
    assert (includes "PRIMARY KEY" definition = true) as Hmarker.
    { subst definition. open_attributeToSQL.
      repeat (name_stage;
              try match goal with
                  | template := _ |- includes ?m _ = true =>
                      assert (includes m template = true)
                        by (subst template; rewrite ?Hkey; cbv iota;
                            first [ by apply includes_if_append
                                  | by apply includes_append_l ])
                  end;
              hide_stage).
      destruct (IBMi.Column.references attribute) as [references|]; [|assumption].
      cbv zeta. find_marker; assumption. }
    split; [exact Hmarker|].
    unfold IBMi.columns. cbn [fold_left IBMi.columnStep]. by rewrite Hmarker.
  - intros Hreferences.
    assert (includes "REFERENCES" definition = true) as Hmarker.
    { subst definition. open_attributeToSQL. repeat (name_stage; hide_stage).
      destruct (IBMi.Column.references attribute) as [references|]; [|done].
      cbv zeta. find_marker. }
    split; [exact Hmarker|].
    unfold IBMi.changeColumnQuery. cbn [fold_left IBMi.changeColumnStep].
    rewrite Hmarker. cbn [app length Nat.ltb Nat.leb].
    by rewrite !append_nil.
Qed.

(** A key column that references [users]. *)
Lemma ibmi_attributeToSQL_markers_witness :
  (IBMi.columns Sample.ibmi
     [("owner",
       IBMi.attributeToSQL Sample.ibmi (fun value => negb (nullish value))
         (inl {| IBMi.Column.type :=
                   {| IBMi.Column.text := "INTEGER"; IBMi.Column.enum := None;
                      IBMi.Column.sql := "INTEGER"; IBMi.Column.binary := false |};
                 IBMi.Column.field := Some "owner"; IBMi.Column.allowNull := Some false;
                 IBMi.Column.autoIncrement := false;
                 IBMi.Column.defaultValue := VUndefined;
                 IBMi.Column.unique := VBool true; IBMi.Column.primaryKey := true;
                 IBMi.Column.first := false; IBMi.Column.after := None;
                 IBMi.Column.references :=
                   Some {| IBMi.Column.table := TString "users";
                           IBMi.Column.key := None |};
                 IBMi.Column.onDelete := Some "cascade";
                 IBMi.Column.onUpdate := Some "cascade" |})
         None)]).1
  = ["owner"].
Proof.
  by apply (ibmi_attributeToSQL_markers Sample.ibmi (fun value => negb (nullish value))
              _ None "owner" (TString "t")).
Defined.

(** The same for an equation between two definitions: the attribute is put
    in place on either side, and a stage that is the same on both sides is
    named on both at once. *)
Ltac open_attributes :=
  cbv beta delta [IBMi.attributeToSQL];
  lazymatch goal with
  | |- (let x := ?v in @?body x) = ?other => change (body v = other)
  end;
  try lazymatch goal with
      | |- ?other = (let x := ?v in @?body x) => change (other = body v)
      end;
  cbv beta iota delta [IBMi.ofDataType IBMi.Column.type IBMi.Column.field
    IBMi.Column.allowNull IBMi.Column.autoIncrement IBMi.Column.defaultValue
    IBMi.Column.unique IBMi.Column.primaryKey IBMi.Column.first IBMi.Column.after
    IBMi.Column.references IBMi.Column.onDelete IBMi.Column.onUpdate].

Ltac name_common_stage :=
  lazymatch goal with
  | |- (let x := ?v in @?left x) = (let y := ?v in @?right y) =>
      let template := fresh "template" in
      pose (template := v); change (left template = right template); cbv beta;
      clearbody template
  end.

(** X15. What [attributeToSQL] leaves out or rewrites: an [onUpdate] of
    cascade, in any letter case, is not written, the definition being that
    of the attribute without [onUpdate]; [unique] is not written on a
    primary key; a default of true or false is written as the default 1 or
    0; and a bare data type with no default to write is defined by the SQL
    of the type alone. *)
Theorem ibmi_attributeToSQL_normalizes (g : Generator)
    (defaultValueSchemable : Value -> bool) (options : option IBMi.Column.Options)
    (type : IBMi.Column.DataType) (field : option string) (allowNull : option bool)
    (autoIncrement : bool) (defaultValue unique : Value) (primaryKey first : bool)
    (after : option string) (references : option IBMi.Column.References)
    (onDelete onUpdate : option string) :
  let definition defaultValue unique primaryKey onUpdate :=
    IBMi.attributeToSQL g defaultValueSchemable
      (inl (IBMi.Column.Build_Attribute type field allowNull autoIncrement defaultValue
              unique primaryKey first after references onDelete onUpdate))
      options in
  (forall action, IBMi.toUpperCase action = "CASCADE" ->
     definition defaultValue unique primaryKey (Some action)
     = definition defaultValue unique primaryKey None)
  /\ definition defaultValue unique true onUpdate
     = definition defaultValue VUndefined true onUpdate
  /\ (defaultValueSchemable (VBool true) = defaultValueSchemable (VNumber 1) ->
      definition (VBool true) unique primaryKey onUpdate
      = definition (VNumber 1) unique primaryKey onUpdate)
  /\ (defaultValueSchemable (VBool false) = defaultValueSchemable (VNumber 0) ->
      definition (VBool false) unique primaryKey onUpdate
      = definition (VNumber 0) unique primaryKey onUpdate)
  /\ (IBMi.Column.enum type = None -> defaultValueSchemable VUndefined = false ->
      IBMi.attributeToSQL g defaultValueSchemable (inr type) options
      = IBMi.Column.sql type).
Proof.
  intros definition. subst definition. cbv beta. split_and!.
  - intros action Hcascade. open_attributes.
    repeat name_common_stage.
    destruct references as [target|]; [|done].
    repeat name_common_stage.
    change (default EmptyString (Some action)) with action.
    rewrite Hcascade. cbn [String.eqb Ascii.eqb Bool.eqb negb ofOptString truthy andb].
    by rewrite andb_false_r.
  - open_attributes. cbn [negb]. by rewrite !andb_false_r.
  - intros Hdefault. open_attributes. by rewrite Hdefault.
  - intros Hdefault. open_attributes. by rewrite Hdefault.
  - intros Henum Hdefault. open_attributes.
    rewrite Henum, Hdefault. cbv zeta. rewrite !andb_false_r. reflexivity.
Qed.

(** [onUpdate: 'Cascade'] is not written; [onUpdate: 'restrict'] is. *)
Lemma ibmi_attributeToSQL_normalizes_witness :
  IBMi.attributeToSQL Sample.ibmi (fun value => negb (nullish value))
    (inl (IBMi.Column.Build_Attribute
            {| IBMi.Column.text := "INTEGER"; IBMi.Column.enum := None;
               IBMi.Column.sql := "INTEGER"; IBMi.Column.binary := false |}
            (Some "owner") None false VUndefined VUndefined false false None
            (Some {| IBMi.Column.table := TString "users"; IBMi.Column.key := None |})
            None (Some "Cascade")))
    None
  = "INTEGER REFERENCES " +:+ dq +:+ "users" +:+ dq +:+ " (" +:+ dq +:+ "id" +:+ dq +:+ ")".
Proof.
  destruct (ibmi_attributeToSQL_normalizes Sample.ibmi (fun value => negb (nullish value))
              None
              {| IBMi.Column.text := "INTEGER"; IBMi.Column.enum := None;
                 IBMi.Column.sql := "INTEGER"; IBMi.Column.binary := false |}
              (Some "owner") None false VUndefined VUndefined false false None
              (Some {| IBMi.Column.table := TString "users"; IBMi.Column.key := None |})
              None None) as (Hcascade & _).
  rewrite (Hcascade "Cascade"); by vm_compute.
Defined.
